(** * recursive-virustotal: hash-based deduplication and threat verdicts

    A shallow embedding of [recursive-vt.py]: the classes [simpleFile],
    [observedEntity] and [entityHandler], and the three phases of the
    script (registration, VirusTotal polling, reporting).

    Python objects are records, the registry ([hash_dict], an insertion
    ordered Python dict) is an association list in insertion order, and
    methods that mutate or raise live in a state-and-exception monad in
    which the state survives a raised exception, as attribute assignments
    made before the [raise] do in Python. *)

From Stdlib Require Import ZArith QArith List String Ascii Bool Lia Permutation.
From Stdlib Require Import SpecFloat.
Import ListNotations.

Local Open Scope string_scope.
Local Open Scope list_scope.
Local Open Scope Z_scope.

Set Warnings "-register-all".
Set Default Proof Using "Type".

(** ** Exceptions and the state-and-exception monad *)

Inductive exn : Type :=
| KeyError (key : string)
| TypeError
| ZeroDivisionError
| OverflowError
| OSError (file_name : string).

Inductive result (A : Type) : Type :=
| Ok (a : A)
| Raise (e : exn).

Arguments Ok {A} a.
Arguments Raise {A} e.

Definition M (S A : Type) : Type := S -> S * result A.

Definition ret {S A : Type} (a : A) : M S A := fun s => (s, Ok a).

Definition raise {S A : Type} (e : exn) : M S A := fun s => (s, Raise e).

Definition bind {S A B : Type} (m : M S A) (k : A -> M S B) : M S B :=
  fun s =>
    match m s with
    | (s', Ok a) => k a s'
    | (s', Raise e) => (s', Raise e)
    end.

Definition get {S : Type} : M S S := fun s => (s, Ok s).

Definition modify {S : Type} (f : S -> S) : M S unit := fun s => (f s, Ok tt).

Definition lift {S A : Type} (r : result A) : M S A := fun s => (s, r).

Declare Scope py_scope.
Delimit Scope py_scope with py.

Notation "x <- m ;; k" := (bind m (fun x => k))
  (at level 100, m at next level, right associativity) : py_scope.
Notation "m ;;; k" := (bind m (fun _ => k))
  (at level 100, right associativity) : py_scope.

(** State and outcome of a computation started in [s]. *)
Definition state_after {S A : Type} (m : M S A) (s : S) : S := fst (m s).
Definition outcome {S A : Type} (m : M S A) (s : S) : result A := snd (m s).

(** ** Python values

    The values a decoded JSON document is made of.  [PInt] is Python's
    unbounded [int], [PFloat] a binary64 [float] (a [spec_float] with
    [prec = 53] and [emax = 1024]), [PDict] a dict with string keys in
    insertion order. *)

Inductive pyval : Type :=
| PNone
| PBool (b : bool)
| PInt (z : Z)
| PFloat (f : spec_float)
| PStr (s : string)
| PList (l : list pyval)
| PDict (d : list (string * pyval)).

Definition prec : Z := 53.
Definition emax : Z := 1024.

Fixpoint dict_get {V : Type} (d : list (string * V)) (key : string) : option V :=
  match d with
  | [] => None
  | (k, v) :: d' => if String.eqb k key then Some v else dict_get d' key
  end.

(** [v[key]] for a string [key]: only a dict can be subscripted by a
    string; a missing key raises [KeyError], any other receiver
    [TypeError]. *)
Definition py_getitem (v : pyval) (key : string) : result pyval :=
  match v with
  | PDict d =>
      match dict_get d key with
      | Some x => Ok x
      | None => Raise (KeyError key)
      end
  | _ => Raise TypeError
  end.

(** An [int] as the (not yet rounded) binary float [z * 2^0]. *)
Definition Z2SF (z : Z) : spec_float :=
  match z with
  | Z0 => S754_zero false
  | Zpos p => S754_finite false p 0
  | Zneg p => S754_finite true p 0
  end.

(** [float(z)]: the nearest binary64, ties to even; [OverflowError]
    when [z] is too large. *)
Definition int_to_float (z : Z) : result spec_float :=
  match binary_normalize prec emax z 0 false with
  | S754_infinity _ => Raise OverflowError
  | f => Ok f
  end.

Definition is_float_zero (f : spec_float) : bool :=
  match f with S754_zero _ => true | _ => false end.

(** The numeric reading of a value: [bool] is a subclass of [int]. *)
Inductive number : Type :=
| NInt (z : Z)
| NFloat (f : spec_float).

Definition as_number (v : pyval) : option number :=
  match v with
  | PBool b => Some (NInt (if b then 1 else 0))
  | PInt z => Some (NInt z)
  | PFloat f => Some (NFloat f)
  | _ => None
  end.

Definition number_to_float (n : number) : result spec_float :=
  match n with
  | NInt z => int_to_float z
  | NFloat f => Ok f
  end.

(** [a / b], Python's true division.  Two ints give the correctly
    rounded quotient ([ZeroDivisionError] on a zero divisor,
    [OverflowError] when the quotient exceeds the float range); with a
    float operand both are converted to float first. *)
Definition py_truediv (a b : pyval) : result spec_float :=
  match as_number a, as_number b with
  | Some (NInt x), Some (NInt y) =>
      if y =? 0 then Raise ZeroDivisionError
      else match SFdiv prec emax (Z2SF x) (Z2SF y) with
           | S754_infinity _ => Raise OverflowError
           | q => Ok q
           end
  | Some x, Some y =>
      match number_to_float x with
      | Raise e => Raise e
      | Ok fx =>
          match number_to_float y with
          | Raise e => Raise e
          | Ok fy =>
              if is_float_zero fy then Raise ZeroDivisionError
              else Ok (SFdiv prec emax fx fy)
          end
      end
  | _, _ => Raise TypeError
  end.

(** The float literal [0.1]: [0x1.999999999999ap-4]. *)
Definition float_0_1 : spec_float := S754_finite false 7205759403792794 (-56).

(** The float [1.0]. *)
Definition float_1 : spec_float := S754_finite false 4503599627370496 (-52).

(** [x >= y] on floats. *)
Definition float_ge (x y : spec_float) : bool := SFleb y x.

(** [v == 1]: true for the int [1], for [True] and for the float [1.0]. *)
Definition py_eq_1 (v : pyval) : bool :=
  match v with
  | PBool b => b
  | PInt z => z =? 1
  | PFloat f => SFeqb f float_1
  | _ => false
  end.

(** [json.loads(json.dumps(v))]: a fresh copy of the document. *)
Fixpoint json_roundtrip (v : pyval) : pyval :=
  match v with
  | PList l => PList (map json_roundtrip l)
  | PDict d => PDict (map (fun kv => (fst kv, json_roundtrip (snd kv))) d)
  | _ => v
  end.

(** ** class simpleFile *)

Record simpleFile : Type := mk_simpleFile {
  sf_file_name : string;
  sf_hash : string
}.

Definition sf_get_hash (self : simpleFile) : string := sf_hash self.
Definition sf_get_file_name (self : simpleFile) : string := sf_file_name self.

(** ** class observedEntity *)

Record observedEntity : Type := mk_observedEntity {
  files : list string;
  hash : string;
  isMalicious : bool;
  vt_result : pyval;
  positives : pyval;
  total_scanners : pyval;
  scan_date : option pyval
}.

Definition observedEntity_init (file : simpleFile) : observedEntity :=
  {| files := [] ++ [sf_get_file_name file];
     hash := sf_get_hash file;
     isMalicious := false;
     vt_result := PStr "";
     positives := PInt 0;
     total_scanners := PInt 1;
     scan_date := None |}.

Definition set_files (fs : list string) (e : observedEntity) : observedEntity :=
  {| files := fs; hash := hash e; isMalicious := isMalicious e;
     vt_result := vt_result e; positives := positives e;
     total_scanners := total_scanners e; scan_date := scan_date e |}.

Definition set_vt_result (r : pyval) (e : observedEntity) : observedEntity :=
  {| files := files e; hash := hash e; isMalicious := isMalicious e;
     vt_result := r; positives := positives e;
     total_scanners := total_scanners e; scan_date := scan_date e |}.

Definition set_total_scanners (t : pyval) (e : observedEntity) : observedEntity :=
  {| files := files e; hash := hash e; isMalicious := isMalicious e;
     vt_result := vt_result e; positives := positives e;
     total_scanners := t; scan_date := scan_date e |}.

Definition set_positives (p : pyval) (e : observedEntity) : observedEntity :=
  {| files := files e; hash := hash e; isMalicious := isMalicious e;
     vt_result := vt_result e; positives := p;
     total_scanners := total_scanners e; scan_date := scan_date e |}.

Definition set_scan_date (d : pyval) (e : observedEntity) : observedEntity :=
  {| files := files e; hash := hash e; isMalicious := isMalicious e;
     vt_result := vt_result e; positives := positives e;
     total_scanners := total_scanners e; scan_date := Some d |}.

Definition add_file_name (file_name : string) (self : observedEntity) : observedEntity :=
  set_files (files self ++ [file_name]) self.

Definition get_file_names (self : observedEntity) : list string := files self.

Definition get_hash (self : observedEntity) : string := hash self.

Definition add_virustotal_result (result : pyval) : M observedEntity unit :=
  (modify (set_vt_result result) ;;;
   let json_data := json_roundtrip result in
   results <- lift (py_getitem json_data "results") ;;
   response_code <- lift (py_getitem results "response_code") ;;
   if py_eq_1 response_code then
     results <- lift (py_getitem json_data "results") ;;
     total <- lift (py_getitem results "total") ;;
     modify (set_total_scanners total) ;;;
     results <- lift (py_getitem json_data "results") ;;
     positives <- lift (py_getitem results "positives") ;;
     modify (set_positives positives) ;;;
     results <- lift (py_getitem json_data "results") ;;
     scan_date <- lift (py_getitem results "scan_date") ;;
     modify (set_scan_date scan_date)
   else ret tt)%py.

Definition get_virustotal_result (self : observedEntity) : pyval := vt_result self.

Definition count_total_scanners (self : observedEntity) : pyval := total_scanners self.

Definition count_alerting_scanners (self : observedEntity) : pyval := positives self.

(** ** Console and network events *)

Inductive event : Type :=
| EvQuery (hash : string)
| EvSleep (seconds : Z)
| EvPrintRatio (ratio : spec_float)
| EvPrintMalicious (hash : string) (file_names : list string)
| EvPrintAlerting (positives : pyval)
| EvPrintBenign (file_names : list string)
| EvPrintResult (vt_result : pyval).

Definition world : Type := list event.

Definition emit (ev : event) : M world unit := modify (fun w => w ++ [ev]).

Definition is_malicious (self : observedEntity) : M world bool :=
  (ratio <- lift (py_truediv (count_alerting_scanners self) (count_total_scanners self)) ;;
   emit (EvPrintRatio ratio) ;;;
   ratio <- lift (py_truediv (count_alerting_scanners self) (count_total_scanners self)) ;;
   ret (float_ge ratio float_0_1))%py.

(** Running a computation on one component of a pair state. *)
Definition on_fst {S T A : Type} (m : M S A) : M (S * T) A :=
  fun st => match m (fst st) with (s', r) => ((s', snd st), r) end.

Definition on_snd {S T A : Type} (m : M T A) : M (S * T) A :=
  fun st => match m (snd st) with (t', r) => ((fst st, t'), r) end.

(** ** The environment of a run

    [hashlib.sha256] as an incremental hasher, the file system as seen by
    [open(file_name, 'rb')] ([None]: the open fails), the directory walk
    of [glob.iglob], [os.path.isfile], and the VirusTotal client
    [vt.get_file_report]. *)

Record hashlib : Type := {
  hasher : Type;
  sha256 : hasher;
  update : hasher -> list Byte.byte -> hasher;
  hexdigest : hasher -> string
}.

(** [d[key] = v]: the value is replaced in place when [key] is present
    and the pair is appended otherwise.  It is also how the mutation of
    the object stored under [key] is written. *)
Fixpoint dict_set {V : Type} (d : list (string * V)) (key : string) (v : V)
  : list (string * V) :=
  match d with
  | [] => [(key, v)]
  | (k, x) :: d' =>
      if String.eqb k key then (k, v) :: d' else (k, x) :: dict_set d' key v
  end.

(** The blocks [iter(lambda: f.read(n), b"")] yields on a file holding
    [data]: [fuel] bounds the number of reads. *)
Fixpoint read_blocks (n fuel : nat) (data : list Byte.byte) : list (list Byte.byte) :=
  match fuel with
  | O => []
  | S fuel' =>
      match firstn n data with
      | [] => []
      | byte_block => byte_block :: read_blocks n fuel' (skipn n data)
      end
  end.

Definition block_size : nat := 4096.

Record entityHandler : Type := mk_entityHandler {
  hash_dict : list (string * observedEntity)
}.

Definition entityHandler_init : entityHandler := {| hash_dict := [] |}.

Definition get_entities (self : entityHandler) : list (string * observedEntity) :=
  hash_dict self.

Definition count_entities (self : entityHandler) : Z :=
  Z.of_nat (List.length (hash_dict self)).

Section Run.

Variable H : hashlib.
Variable fs : string -> option (list Byte.byte).
Variable os_path_isfile : string -> bool.
Variable vt_get_file_report : string -> pyval.

Definition hash_bytes (data : list Byte.byte) : string :=
  hexdigest H
    (fold_left (update H) (read_blocks block_size (List.length data) data) (sha256 H)).

Definition calculate_hash (file_name : string) : result string :=
  match fs file_name with
  | None => Raise (OSError file_name)
  | Some data => Ok (hash_bytes data)
  end.

Definition simpleFile_init (file_name : string) : result simpleFile :=
  match calculate_hash file_name with
  | Ok h => Ok {| sf_file_name := file_name; sf_hash := h |}
  | Raise e => Raise e
  end.

(** *** class entityHandler *)

Definition add_file (file : string) : M entityHandler unit :=
  (new_file <- lift (simpleFile_init file) ;;
   self <- get ;;
   let existing_duplicates := dict_get (hash_dict self) (sf_get_hash new_file) in
   match existing_duplicates with
   | Some existing =>
       modify (fun self =>
         {| hash_dict := dict_set (hash_dict self) (sf_get_hash new_file)
              (add_file_name (sf_get_file_name new_file) existing) |})
   | None =>
       modify (fun self =>
         {| hash_dict := dict_set (hash_dict self) (sf_get_hash new_file)
              (observedEntity_init new_file) |})
   end)%py.

Definition get_file_report_events (hash : string) : M world pyval :=
  (emit (EvQuery hash) ;;; ret (vt_get_file_report hash))%py.

Definition time_sleep (seconds : Z) : M world unit := emit (EvSleep seconds).

(** The loop of [retrieve_virustotal_results] over the items of the
    dict.  Each entity is queried and updated in place, then the loop
    sleeps; an exception leaves the loop at once, the entities reached
    so far keeping what was assigned to them. *)
Fixpoint poll (waiting_time : Z) (items : list (string * observedEntity)) (w : world)
  : (list (string * observedEntity) * world) * result unit :=
  match items with
  | [] => (([], w), Ok tt)
  | (hash, observed_entity) :: rest =>
      match get_file_report_events hash w with
      | (w, Raise e) => (((hash, observed_entity) :: rest, w), Raise e)
      | (w, Ok report) =>
          match add_virustotal_result report observed_entity with
          | (observed_entity, Raise e) =>
              (((hash, observed_entity) :: rest, w), Raise e)
          | (observed_entity, Ok _) =>
              match time_sleep waiting_time w with
              | (w, Raise e) => (((hash, observed_entity) :: rest, w), Raise e)
              | (w, Ok _) =>
                  match poll waiting_time rest w with
                  | ((rest, w), r) => (((hash, observed_entity) :: rest, w), r)
                  end
              end
          end
      end
  end.

(** [entity_handler] is the module-level handler the method reads the
    count from; [self] is the handler whose entities are polled. *)
Definition retrieve_virustotal_results (entity_handler : entityHandler)
  : M (entityHandler * world) unit :=
  fun st =>
    let self := fst st in
    let waiting_time := if count_entities entity_handler <=? 4 then 0 else 15 in
    match poll waiting_time (get_entities self) (snd st) with
    | ((items, w), r) => (({| hash_dict := items |}, w), r)
    end.

(** *** The script *)

Fixpoint register_files (paths : list string) : M entityHandler unit :=
  match paths with
  | [] => ret tt
  | file :: rest =>
      ((if os_path_isfile file then add_file file else ret tt) ;;;
       register_files rest)%py
  end.

Fixpoint report (items : list (string * observedEntity)) : M world unit :=
  match items with
  | [] => ret tt
  | (hash, observed_entity) :: rest =>
      (malicious <- is_malicious observed_entity ;;
       (if malicious : bool then
          emit (EvPrintMalicious hash (get_file_names observed_entity)) ;;;
          emit (EvPrintAlerting (count_alerting_scanners observed_entity)) ;;;
          emit (EvPrintResult (get_virustotal_result observed_entity))
        else
          emit (EvPrintBenign (get_file_names observed_entity)) ;;;
          emit (EvPrintResult (get_virustotal_result observed_entity))) ;;;
       report rest)%py
  end.

(** The script from [entity_handler = entityHandler()] on; [paths] is
    what [glob.iglob] enumerates. *)
Definition script (paths : list string) : M (entityHandler * world) unit :=
  (on_fst (register_files paths) ;;;
   entity_handler <- on_fst get ;;
   retrieve_virustotal_results entity_handler ;;;
   entity_handler <- on_fst get ;;
   on_snd (report (get_entities entity_handler)))%py.

Definition run (paths : list string) : (entityHandler * world) * result unit :=
  script paths (entityHandler_init, []).

End Run.

(** ** Concrete environments used to run the model *)

(** A stand-in for [hashlib] whose digest is the content itself, so that
    it never collides. *)
Definition plain_hashlib : hashlib :=
  {| hasher := list Byte.byte;
     sha256 := [];
     update := fun h block => h ++ block;
     hexdigest := string_of_list_byte |}.

Definition bytes_of (s : string) : list Byte.byte := list_byte_of_string s.

(** A tree with two copies of one content and a third, different file. *)
Definition fs3 (file_name : string) : option (list Byte.byte) :=
  if String.eqb file_name "dir/A" then Some (bytes_of "same")
  else if String.eqb file_name "dir/sub/B" then Some (bytes_of "same")
  else if String.eqb file_name "dir/C" then Some (bytes_of "other")
  else None.

(** A successful lookup: [total] engines, [positives] of them alerting. *)
Definition found_report (total positives : pyval) : pyval :=
  PDict [("results",
          PDict [("response_code", PInt 1);
                 ("total", total);
                 ("positives", positives);
                 ("scan_date", PStr "2019-05-01 12:00:00")]);
         ("response_code", PInt 200)].

(** The answer for a hash VirusTotal does not know. *)
Definition unknown_report : pyval :=
  PDict [("results",
          PDict [("response_code", PInt 0);
                 ("verbose_msg", PStr "The requested resource is not among the finished, queued or pending scans")]);
         ("response_code", PInt 200)].

(** The answer of the client once the request quota is exceeded: no
    [results] entry. *)
Definition rate_limit_report : pyval :=
  PDict [("error", PStr "You exceeded the public API request rate limit");
         ("response_code", PInt 204)].

(** Five files, each with a content of its own. *)
Definition fs5 (file_name : string) : option (list Byte.byte) :=
  if String.eqb file_name "f1" then Some (bytes_of "one")
  else if String.eqb file_name "f2" then Some (bytes_of "two")
  else if String.eqb file_name "f3" then Some (bytes_of "three")
  else if String.eqb file_name "f4" then Some (bytes_of "four")
  else if String.eqb file_name "f5" then Some (bytes_of "five")
  else None.

Definition five_files : list string := ["f1"; "f2"; "f3"; "f4"; "f5"].

Definition file_A : simpleFile := {| sf_file_name := "dir/A"; sf_hash := "same" |}.

(** ** Observations used in the statements *)

(** The [total] a response makes [add_virustotal_result] assign, if any:
    the response has a [results] entry whose [response_code] equals 1
    and which holds a [total]. *)
Definition assigned_total (response : pyval) : option pyval :=
  match py_getitem response "results" with
  | Ok results =>
      match py_getitem results "response_code" with
      | Ok response_code =>
          if py_eq_1 response_code then
            match py_getitem results "total" with
            | Ok total => Some total
            | Raise _ => None
            end
          else None
      | Raise _ => None
      end
  | Raise _ => None
  end.

Definition at_least_1 (v : pyval) : bool :=
  match v with
  | PInt z => 1 <=? z
  | _ => false
  end.

Definition total_at_least_1 (response : pyval) : bool :=
  match assigned_total response with
  | Some total => at_least_1 total
  | None => true
  end.

(** A sequence of [add_virustotal_result] calls on one entity, each next
    call made whether or not the previous one raised. *)
Definition record_results (responses : list pyval) (e : observedEntity) : observedEntity :=
  fold_left (fun e response => state_after (add_virustotal_result response) e) responses e.

(** What [is_malicious] returns (or raises), whatever was printed before. *)
Definition verdict (e : observedEntity) : result bool := outcome (is_malicious e) [].

Definition keys {V : Type} (d : list (string * V)) : list string := map fst d.

(** The hashes queried and the pauses made, in order. *)
Definition queries (w : world) : list string :=
  flat_map (fun ev => match ev with EvQuery h => [h] | _ => [] end) w.

Definition sleeps (w : world) : list Z :=
  flat_map (fun ev => match ev with EvSleep s => [s] | _ => [] end) w.

(** The events of a poll that goes through all of [items]: a query and
    then a sleep for each. *)
Definition polled_trace (waiting_time : Z) (items : list (string * observedEntity))
  : world :=
  flat_map (fun item => [EvQuery (fst item); EvSleep waiting_time]) items.

(** The poll changes neither key, hash nor file names of an entity. *)
Definition same_files (old new : string * observedEntity) : Prop :=
  fst new = fst old /\
  hash (snd new) = hash (snd old) /\
  files (snd new) = files (snd old).

Definition bytes_eq_dec : forall x y : list Byte.byte, {x = y} + {x <> y} :=
  list_eq_dec Byte.byte_eq_dec.

(** The number of distinct values in a list. *)
Definition distinct_strings (l : list string) : nat :=
  List.length (nodup string_dec l).

Definition distinct_contents (l : list (list Byte.byte)) : nat :=
  List.length (nodup bytes_eq_dec l).

Section Registry.

Variable H : hashlib.
Variable fs : string -> option (list Byte.byte).
Variable os_path_isfile : string -> bool.
Variable vt_get_file_report : string -> pyval.

(** The files the script registers among the enumerated [paths], and
    their contents and digests. *)
Definition registered (paths : list string) : list string :=
  filter os_path_isfile paths.

Definition contents (file_names : list string) : list (list Byte.byte) :=
  flat_map (fun f => match fs f with Some data => [data] | None => [] end) file_names.

Definition digests (file_names : list string) : list string :=
  map (hash_bytes H) (contents file_names).

Definition readable (file_names : list string) : Prop :=
  Forall (fun f => fs f <> None) file_names.

(** The digest does not collide on the given contents. *)
Definition collision_free (l : list (list Byte.byte)) : Prop :=
  forall c1 c2, In c1 l -> In c2 l -> hash_bytes H c1 = hash_bytes H c2 -> c1 = c2.

(** The invariant of the registry: keys are unique, every entity sits
    under its own hash, and every file name it lists hashes to it. *)
Definition entity_consistent (item : string * observedEntity) : Prop :=
  hash (snd item) = fst item /\
  Forall (fun f => calculate_hash H fs f = Ok (hash (snd item))) (files (snd item)).

Definition registry_consistent (self : entityHandler) : Prop :=
  NoDup (keys (hash_dict self)) /\ Forall entity_consistent (hash_dict self).

(** [new] extends [old]: same key, same hash, and the old file names are
    a prefix of the new ones. *)
Definition entity_grows (old new : string * observedEntity) : Prop :=
  fst new = fst old /\
  hash (snd new) = hash (snd old) /\
  exists added, files (snd new) = files (snd old) ++ added.

(** Every old entity is still there, at its place and extended; new
    entities come after them. *)
Definition registry_grows (old new : entityHandler) : Prop :=
  exists kept fresh,
    hash_dict new = kept ++ fresh /\
    Forall2 entity_grows (hash_dict old) kept.

(** The operations of a handler, and a sequence of them, each next
    operation run whether or not the previous one raised. *)
Inductive operation : Type :=
| Add_file (file : string)
| Retrieve_virustotal_results.

Definition perform (op : operation) : M (entityHandler * world) unit :=
  match op with
  | Add_file file => on_fst (add_file H fs file)
  | Retrieve_virustotal_results =>
      fun st => retrieve_virustotal_results vt_get_file_report (fst st) st
  end.

Definition perform_all (ops : list operation) (st : entityHandler * world)
  : entityHandler * world :=
  fold_left (fun st op => state_after (perform op) st) ops st.

End Registry.

(** The threshold in the words of the specification: the exact ratio
    [positives / total_scanners] is at least [0.10]. *)
Definition ratio_at_least_tenth (p t : Z) : Prop :=
  (1 # 10 <= inject_Z p / inject_Z t)%Q.

(** An entity whose counts are far beyond any number of scanners and
    whose ratio is just below one tenth. *)
Definition huge_counts : observedEntity :=
  set_positives (PInt 99999999999999999)
    (set_total_scanners (PInt 1000000000000000000) (observedEntity_init file_A)).

(** An entity with 6 alerting scanners out of 60. *)
Definition six_of_sixty : observedEntity :=
  state_after (add_virustotal_result (found_report (PInt 60) (PInt 6)))
    (observedEntity_init file_A).

(** ** Observations used for the further properties *)

(** The hasher is incremental: feeding two blocks one after the other is
    feeding their concatenation, and feeding nothing changes nothing. *)
Definition hasher_streams (H : hashlib) : Prop :=
  (forall h a b, update H (update H h a) b = update H h (a ++ b)) /\
  (forall h, update H h [] = h).

(** The file names an entity lists under [key]; none when the registry
    has no such key. *)
Definition file_names_under (self : entityHandler) (key : string) : list string :=
  match dict_get (hash_dict self) key with
  | Some e => get_file_names e
  | None => []
  end.

(** All the file names of the registry, entity after entity. *)
Definition all_file_names (self : entityHandler) : list string :=
  flat_map (fun item => get_file_names (snd item)) (hash_dict self).

Definition is_network (ev : event) : bool :=
  match ev with
  | EvQuery _ | EvSleep _ => true
  | _ => false
  end.

Definition is_print (ev : event) : bool := negb (is_network ev).

(** A tree with a file that cannot be read between two that can. *)
Definition paths_with_missing : list string := ["dir/A"; "missing"; "dir/C"].

(** The files among [file_names] whose content hashes to [key], in the
    order of [file_names]. *)
Definition has_digest (H : hashlib) (fs : string -> option (list Byte.byte))
  (key file : string) : bool :=
  match calculate_hash H fs file with
  | Ok d => String.eqb d key
  | Raise _ => false
  end.

Definition files_with_digest (H : hashlib) (fs : string -> option (list Byte.byte))
  (key : string) (file_names : list string) : list string :=
  filter (has_digest H fs key) file_names.

Definition every_entity_lists_a_file (self : entityHandler) : Prop :=
  Forall (fun item => get_file_names (snd item) <> []) (hash_dict self).

(** An entity of the registry once the report of its hash was recorded. *)
Definition polled_entity (vt_get_file_report : string -> pyval)
  (item : string * observedEntity) : string * observedEntity :=
  (fst item,
   state_after (add_virustotal_result (vt_get_file_report (fst item))) (snd item)).

(** The hashes printed as potentially malicious, and the raw results
    printed, in order. *)
Definition reported_malicious (w : world) : list string :=
  flat_map (fun ev => match ev with EvPrintMalicious h _ => [h] | _ => [] end) w.

Definition reported_results (w : world) : list pyval :=
  flat_map (fun ev => match ev with EvPrintResult r => [r] | _ => [] end) w.

Definition verdict_is_true (item : string * observedEntity) : bool :=
  match verdict (snd item) with
  | Ok true => true
  | _ => false
  end.

Definition verdict_returns (item : string * observedEntity) : Prop :=
  exists b, verdict (snd item) = Ok b.

(** The lines printed for one entity. *)
Definition report_lines (item : string * observedEntity) : world :=
  match py_truediv (positives (snd item)) (total_scanners (snd item)) with
  | Ok ratio =>
      EvPrintRatio ratio ::
      (if float_ge ratio float_0_1
       then [EvPrintMalicious (fst item) (get_file_names (snd item));
             EvPrintAlerting (count_alerting_scanners (snd item));
             EvPrintResult (get_virustotal_result (snd item))]
       else [EvPrintBenign (get_file_names (snd item));
             EvPrintResult (get_virustotal_result (snd item))])
  | Raise _ => []
  end.

(** An entity whose lookup reported no engine at all. *)
Definition none_of_none : observedEntity :=
  record_results [found_report (PInt 0) (PInt 0)] (observedEntity_init file_A).

(** A report the script can digest: it has a [results] entry with a
    [response_code], and when the code is [1] the entry also has a
    [scan_date] and int counts below [2^53], the total positive. *)
Definition usable_report (response : pyval) : Prop :=
  exists results code,
    py_getitem response "results" = Ok results /\
    py_getitem results "response_code" = Ok code /\
    (py_eq_1 code = true ->
     exists t p date,
       py_getitem results "total" = Ok (PInt t) /\
       py_getitem results "positives" = Ok (PInt p) /\
       py_getitem results "scan_date" = Ok date /\
       0 < t < 2 ^ 53 /\ 0 <= p < 2 ^ 53).

(** The counts an entity is created with. *)
Definition default_counts (item : string * observedEntity) : Prop :=
  positives (snd item) = PInt 0 /\ total_scanners (snd item) = PInt 1.

(** * Properties *)

Lemma json_roundtrip_id : forall v, json_roundtrip v = v.
Proof.
  fix IH 1.
  intros [ | b | z | f | s | l | d]; simpl; try reflexivity.
  - f_equal. induction l as [|x l IHl]; simpl.
    + reflexivity.
    + rewrite IH, IHl. reflexivity.
  - f_equal. induction d as [|[k x] d IHd]; simpl.
    + reflexivity.
    + rewrite IH, IHd. reflexivity.
Qed.

Ltac run_method :=
  unfold add_virustotal_result, is_malicious, emit, bind, modify, lift, ret,
    state_after, outcome;
  rewrite ?json_roundtrip_id; cbn [fst snd].

(** The three shapes of a call of [add_virustotal_result]. *)

Lemma avr_malformed : forall response e ex,
  py_getitem response "results" = Raise ex ->
  add_virustotal_result response e = (set_vt_result response e, Raise ex).
Proof.
  intros response e ex Hres. run_method. rewrite Hres. reflexivity.
Qed.

Lemma avr_no_code : forall response results e ex,
  py_getitem response "results" = Ok results ->
  py_getitem results "response_code" = Raise ex ->
  add_virustotal_result response e = (set_vt_result response e, Raise ex).
Proof.
  intros response results e ex Hres Hcode. run_method.
  rewrite Hres, Hcode. reflexivity.
Qed.

Lemma avr_not_found : forall response results code e,
  py_getitem response "results" = Ok results ->
  py_getitem results "response_code" = Ok code ->
  py_eq_1 code = false ->
  add_virustotal_result response e = (set_vt_result response e, Ok tt).
Proof.
  intros response results code e Hres Hcode Hne. run_method.
  rewrite Hres, Hcode, Hne. reflexivity.
Qed.

Lemma avr_found : forall response results code total pos date e,
  py_getitem response "results" = Ok results ->
  py_getitem results "response_code" = Ok code ->
  py_eq_1 code = true ->
  py_getitem results "total" = Ok total ->
  py_getitem results "positives" = Ok pos ->
  py_getitem results "scan_date" = Ok date ->
  add_virustotal_result response e =
  (set_scan_date date
     (set_positives pos (set_total_scanners total (set_vt_result response e))),
   Ok tt).
Proof.
  intros response results code total pos date e Hres Hcode Heq Ht Hp Hd.
  run_method.
  repeat (first [rewrite Hres | rewrite Hcode | rewrite Heq
                | rewrite Ht | rewrite Hp | rewrite Hd]; cbn [fst snd]).
  reflexivity.
Qed.

(** Whatever the response, the call changes the entity in at most the
    four attributes it assigns, and [total_scanners] only to the total
    the response assigns. *)
Lemma avr_total_scanners : forall response e,
  total_scanners (state_after (add_virustotal_result response) e) =
  match assigned_total response with
  | Some total => total
  | None => total_scanners e
  end.
Proof.
  intros response e. unfold assigned_total. run_method.
  destruct (py_getitem response "results") as [results|ex]; [|reflexivity].
  destruct (py_getitem results "response_code") as [code|ex]; [|reflexivity].
  destruct (py_eq_1 code); [|reflexivity].
  cbn. destruct (py_getitem results "total") as [total|ex]; [|reflexivity].
  cbn. destruct (py_getitem results "positives") as [pos|ex]; [|reflexivity].
  cbn. destruct (py_getitem results "scan_date") as [date|ex]; reflexivity.
Qed.

Lemma avr_files_hash : forall response e,
  files (state_after (add_virustotal_result response) e) = files e /\
  hash (state_after (add_virustotal_result response) e) = hash e.
Proof.
  intros response e. run_method.
  destruct (py_getitem response "results") as [results|ex]; [|split; reflexivity].
  destruct (py_getitem results "response_code") as [code|ex]; [|split; reflexivity].
  destruct (py_eq_1 code); [|split; reflexivity].
  cbn. destruct (py_getitem results "total") as [total|ex]; [|split; reflexivity].
  cbn. destruct (py_getitem results "positives") as [pos|ex]; [|split; reflexivity].
  cbn. destruct (py_getitem results "scan_date") as [date|ex]; split; reflexivity.
Qed.

(** C9. Round trip of the raw response: after [add_virustotal_result]
    was called with a response, whether the call returned or raised and
    whatever the response code, [get_virustotal_result] returns exactly
    that response. *)
Theorem raw_result_roundtrip : forall (response : pyval) (e : observedEntity),
  get_virustotal_result (state_after (add_virustotal_result response) e) = response.
Proof.
  intros response e. unfold get_virustotal_result. run_method.
  destruct (py_getitem response "results") as [results|ex]; [|reflexivity].
  destruct (py_getitem results "response_code") as [code|ex]; [|reflexivity].
  destruct (py_eq_1 code); [|reflexivity].
  cbn. destruct (py_getitem results "total") as [total|ex]; [|reflexivity].
  cbn. destruct (py_getitem results "positives") as [pos|ex]; [|reflexivity].
  cbn. destruct (py_getitem results "scan_date") as [date|ex]; reflexivity.
Qed.

Lemma verdict_of_counts : forall e ratio,
  py_truediv (positives e) (total_scanners e) = Ok ratio ->
  verdict e = Ok (float_ge ratio float_0_1).
Proof.
  intros e ratio Hdiv. unfold verdict. run_method.
  unfold count_alerting_scanners, count_total_scanners.
  rewrite Hdiv. reflexivity.
Qed.

Lemma verdict_raises : forall e ex,
  py_truediv (positives e) (total_scanners e) = Raise ex ->
  verdict e = Raise ex.
Proof.
  intros e ex Hdiv. unfold verdict. run_method.
  unfold count_alerting_scanners, count_total_scanners.
  rewrite Hdiv. reflexivity.
Qed.

(** An entity that still has the default counts is printed as not
    recognized as malicious. *)
Lemma report_default_counts : forall e h,
  positives e = PInt 0 ->
  total_scanners e = PInt 1 ->
  report [(h, e)] [] =
  ([EvPrintRatio (S754_zero false);
    EvPrintBenign (files e);
    EvPrintResult (vt_result e)], Ok tt).
Proof.
  intros e h Hp Ht. unfold report. run_method.
  unfold count_alerting_scanners, count_total_scanners, get_file_names,
    get_virustotal_result.
  rewrite Hp, Ht. reflexivity.
Qed.

(** C4. A response whose [results] carry a response code: when the code
    equals 1 (a successful lookup) the total, the positives and the scan
    date of the response are assigned to the entity; when it differs, the
    counts are left as they were, so that a fresh entity keeps
    [total_scanners = 1] and [positives = 0], [is_malicious] returns
    [False] and the report prints it as not recognized as malicious. *)
Theorem record_result_by_status :
  forall (response results code : pyval) (e : observedEntity),
    py_getitem response "results" = Ok results ->
    py_getitem results "response_code" = Ok code ->
    let e' := state_after (add_virustotal_result response) e in
    (py_eq_1 code = true ->
     forall total pos date,
       py_getitem results "total" = Ok total ->
       py_getitem results "positives" = Ok pos ->
       py_getitem results "scan_date" = Ok date ->
       outcome (add_virustotal_result response) e = Ok tt /\
       count_total_scanners e' = total /\
       count_alerting_scanners e' = pos /\
       scan_date e' = Some date)
    /\
    (py_eq_1 code = false ->
     outcome (add_virustotal_result response) e = Ok tt /\
     count_total_scanners e' = count_total_scanners e /\
     count_alerting_scanners e' = count_alerting_scanners e /\
     scan_date e' = scan_date e /\
     forall file,
       e = observedEntity_init file ->
       count_total_scanners e' = PInt 1 /\
       count_alerting_scanners e' = PInt 0 /\
       verdict e' = Ok false /\
       forall h,
         report [(h, e')] [] =
         ([EvPrintRatio (S754_zero false);
           EvPrintBenign (get_file_names e');
           EvPrintResult response], Ok tt)).
Proof.
  intros response results code e Hres Hcode e'. split.
  - intros Heq total pos date Ht Hp Hd. subst e'.
    unfold state_after, outcome.
    rewrite (avr_found _ _ _ _ _ _ e Hres Hcode Heq Ht Hp Hd).
    repeat split.
  - intros Hne. subst e'. unfold state_after, outcome.
    rewrite (avr_not_found _ _ _ e Hres Hcode Hne). cbn [fst snd].
    do 4 (split; [reflexivity|]).
    intros file Hfresh. rewrite Hfresh.
    do 3 (split; [reflexivity|]).
    intros h. apply (report_default_counts
      (set_vt_result response (observedEntity_init file)) h); reflexivity.
Qed.

Lemma record_result_by_status_witness :
  (let e' := state_after (add_virustotal_result (found_report (PInt 60) (PInt 6)))
               (observedEntity_init file_A) in
   outcome (add_virustotal_result (found_report (PInt 60) (PInt 6)))
     (observedEntity_init file_A) = Ok tt /\
   count_total_scanners e' = PInt 60 /\
   count_alerting_scanners e' = PInt 6 /\
   scan_date e' = Some (PStr "2019-05-01 12:00:00"))
  /\
  (let e' := state_after (add_virustotal_result unknown_report)
               (observedEntity_init file_A) in
   count_total_scanners e' = PInt 1 /\
   count_alerting_scanners e' = PInt 0 /\
   verdict e' = Ok false).
Proof.
  split.
  - exact (proj1 (record_result_by_status (found_report (PInt 60) (PInt 6))
                    _ _ (observedEntity_init file_A) eq_refl eq_refl)
             eq_refl _ _ _ eq_refl eq_refl eq_refl).
  - pose proof (proj2 (record_result_by_status unknown_report
                    _ _ (observedEntity_init file_A) eq_refl eq_refl)
             eq_refl) as (_ & _ & _ & _ & Hfresh).
    destruct (Hfresh file_A eq_refl) as (Ht & Hp & Hv & _).
    exact (conj Ht (conj Hp Hv)).
Defined.

(** A response without a [results] entry makes the call raise. *)
Lemma malformed_response_raises :
  outcome (add_virustotal_result rate_limit_report) (observedEntity_init file_A)
  = Raise (KeyError "results") /\
  outcome (add_virustotal_result rate_limit_report) (observedEntity_init file_A)
  <> Ok tt.
Proof.
  split; [reflexivity | discriminate].
Qed.

(** C5 (amended). A response whose [results] carry a response code other
    than 1, such as the answer for an unknown hash, makes
    [add_virustotal_result] return without an error and leaves the
    placeholder counts in place.  A response without the [results] entry,
    or whose [results] lack the response code, makes it raise the error
    of the failed lookup, after the raw response was stored and with the
    counts unchanged. *)
Theorem record_result_unknown_or_malformed :
  forall (response : pyval) (e : observedEntity),
    let e' := state_after (add_virustotal_result response) e in
    (forall results code,
       py_getitem response "results" = Ok results ->
       py_getitem results "response_code" = Ok code ->
       py_eq_1 code = false ->
       outcome (add_virustotal_result response) e = Ok tt /\
       count_total_scanners e' = count_total_scanners e /\
       count_alerting_scanners e' = count_alerting_scanners e)
    /\
    (forall ex,
       py_getitem response "results" = Raise ex ->
       outcome (add_virustotal_result response) e = Raise ex /\
       get_virustotal_result e' = response /\
       count_total_scanners e' = count_total_scanners e /\
       count_alerting_scanners e' = count_alerting_scanners e)
    /\
    (forall results ex,
       py_getitem response "results" = Ok results ->
       py_getitem results "response_code" = Raise ex ->
       outcome (add_virustotal_result response) e = Raise ex /\
       get_virustotal_result e' = response /\
       count_total_scanners e' = count_total_scanners e /\
       count_alerting_scanners e' = count_alerting_scanners e).
Proof.
  intros response e e'. subst e'. unfold state_after, outcome.
  split; [|split].
  - intros results code Hres Hcode Hne.
    rewrite (avr_not_found _ _ _ e Hres Hcode Hne). repeat split.
  - intros ex Hres. rewrite (avr_malformed _ e _ Hres). repeat split.
  - intros results ex Hres Hcode.
    rewrite (avr_no_code _ _ e _ Hres Hcode). repeat split.
Qed.

Lemma record_result_unknown_or_malformed_witness :
  (outcome (add_virustotal_result unknown_report) (observedEntity_init file_A) = Ok tt /\
   count_total_scanners
     (state_after (add_virustotal_result unknown_report) (observedEntity_init file_A))
   = PInt 1)
  /\
  (outcome (add_virustotal_result rate_limit_report) (observedEntity_init file_A)
   = Raise (KeyError "results") /\
   get_virustotal_result
     (state_after (add_virustotal_result rate_limit_report) (observedEntity_init file_A))
   = rate_limit_report)
  /\
  outcome (add_virustotal_result (PDict [("results", PDict [])]))
    (observedEntity_init file_A)
  = Raise (KeyError "response_code").
Proof.
  split; [|split].
  - destruct (proj1 (record_result_unknown_or_malformed unknown_report
                       (observedEntity_init file_A)) _ _ eq_refl eq_refl eq_refl)
      as (Hok & Ht & _).
    exact (conj Hok Ht).
  - destruct (proj1 (proj2 (record_result_unknown_or_malformed rate_limit_report
                       (observedEntity_init file_A))) _ eq_refl)
      as (Hraise & Hraw & _).
    exact (conj Hraise Hraw).
  - exact (proj1 (proj2 (proj2 (record_result_unknown_or_malformed
                       (PDict [("results", PDict [])])
                       (observedEntity_init file_A))) _ _ eq_refl eq_refl)).
Defined.

(** A successful lookup that reports no engine at all makes the verdict
    divide by zero. *)
Lemma zero_total_divides_by_zero :
  let e := record_results [found_report (PInt 0) (PInt 0)] (observedEntity_init file_A) in
  at_least_1 (count_total_scanners e) = false /\
  verdict e = Raise ZeroDivisionError.
Proof.
  split; reflexivity.
Qed.

(** ** Reading a file in blocks *)

(** With as many reads allowed as the file has bytes the loop reaches
    the end of the file: the blocks are the whole content, in order. *)
Lemma read_blocks_complete : forall (n fuel : nat) (data : list Byte.byte),
  (0 < n)%nat -> (List.length data <= fuel)%nat ->
  List.concat (read_blocks n fuel data) = data.
Proof.
  intros n fuel. revert n.
  induction fuel as [|fuel IH]; intros n data Hn Hlen.
  - destruct data; [reflexivity | cbn in Hlen; lia].
  - cbn [read_blocks].
    destruct data as [|b data]; [now rewrite firstn_nil|].
    destruct n as [|n]; [lia|].
    cbn [firstn skipn List.concat].
    rewrite IH.
    + cbn. now rewrite firstn_skipn.
    + lia.
    + rewrite length_skipn. cbn in Hlen. lia.
Qed.

(** Each block read is non-empty and has at most [n] bytes. *)
Lemma read_blocks_sizes : forall (n fuel : nat) (data : list Byte.byte),
  Forall (fun block => (0 < List.length block <= n)%nat) (read_blocks n fuel data).
Proof.
  intros n fuel. induction fuel as [|fuel IH]; intros data; cbn [read_blocks].
  - constructor.
  - destruct (firstn n data) as [|b block] eqn:Hfirst; constructor.
    + rewrite <- Hfirst. split.
      * rewrite Hfirst. cbn. lia.
      * apply firstn_le_length.
    + apply IH.
Qed.

(** The digest of the stand-in hasher is the content read. *)
Lemma hash_bytes_plain : forall data,
  hash_bytes plain_hashlib data = string_of_list_byte data.
Proof.
  intros data. unfold hash_bytes. cbn [hexdigest update sha256 plain_hashlib].
  f_equal.
  assert (Hfold : forall (blocks : list (list Byte.byte)) acc,
    fold_left (fun h block => h ++ block) blocks acc = acc ++ List.concat blocks).
  { induction blocks as [|block blocks IHb]; intros acc; cbn.
    - now rewrite app_nil_r.
    - now rewrite IHb, app_assoc. }
  rewrite Hfold. cbn [app].
  apply read_blocks_complete; [unfold block_size; lia | lia].
Qed.

(** ** Dictionaries *)

Section Dict.

Context {V : Type}.
Implicit Types (d : list (string * V)) (k : string) (v : V).

Lemma dict_get_none : forall d k, dict_get d k = None <-> ~ In k (keys d).
Proof.
  induction d as [|[k' x] d IH]; intros k; simpl.
  - tauto.
  - destruct (String.eqb_spec k' k) as [->|Hne].
    + split; [discriminate | intros Hn; exfalso; apply Hn; now left].
    + rewrite IH. tauto.
Qed.

Lemma dict_get_in : forall d k v, dict_get d k = Some v -> In (k, v) d.
Proof.
  induction d as [|[k' x] d IH]; intros k v; simpl.
  - discriminate.
  - destruct (String.eqb_spec k' k) as [->|Hne].
    + intros [= ->]. now left.
    + intros Hget. right. now apply IH.
Qed.

Lemma dict_get_some_key : forall d k v, dict_get d k = Some v -> In k (keys d).
Proof.
  intros d k v Hget. apply dict_get_in in Hget.
  apply (in_map fst) in Hget. exact Hget.
Qed.

Lemma in_dict_get : forall d k v,
  NoDup (keys d) -> In (k, v) d -> dict_get d k = Some v.
Proof.
  induction d as [|[k' x] d IH]; intros k v Hnd Hin; simpl in *.
  - contradiction.
  - inversion Hnd as [|? ? Hnotin Hnd']; subst.
    destruct Hin as [[= -> ->]|Hin].
    + now rewrite String.eqb_refl.
    + destruct (String.eqb_spec k' k) as [->|Hne].
      * exfalso. apply Hnotin. apply (in_map fst) in Hin. exact Hin.
      * now apply IH.
Qed.

Lemma dict_set_absent : forall d k v,
  dict_get d k = None -> dict_set d k v = d ++ [(k, v)].
Proof.
  induction d as [|[k' x] d IH]; intros k v; simpl.
  - reflexivity.
  - destruct (String.eqb k' k); [discriminate|].
    intros Hget. now rewrite IH.
Qed.

Lemma dict_set_present : forall d k x v,
  dict_get d k = Some x ->
  exists d1 d2,
    d = d1 ++ (k, x) :: d2 /\ dict_set d k v = d1 ++ (k, v) :: d2 /\
    ~ In k (keys d1).
Proof.
  induction d as [|[k' y] d IH]; intros k x v; simpl.
  - discriminate.
  - destruct (String.eqb_spec k' k) as [->|Hne].
    + intros [= ->]. exists [], d. simpl. tauto.
    + intros Hget. destruct (IH k x v Hget) as (d1 & d2 & -> & -> & Hnotin).
      exists ((k', y) :: d1), d2. simpl. repeat split. tauto.
Qed.

Lemma keys_dict_set_present : forall d k x v,
  dict_get d k = Some x -> keys (dict_set d k v) = keys d.
Proof.
  intros d k x v Hget.
  destruct (dict_set_present d k x v Hget) as (d1 & d2 & -> & -> & _).
  unfold keys. now rewrite !map_app.
Qed.

Lemma dict_get_set_same : forall d k v, dict_get (dict_set d k v) k = Some v.
Proof.
  induction d as [|[k' y] d IH]; intros k v; simpl.
  - now rewrite String.eqb_refl.
  - destruct (String.eqb_spec k' k) as [->|Hne]; simpl.
    + now rewrite String.eqb_refl.
    + destruct (String.eqb_spec k' k); [contradiction | apply IH].
Qed.

Lemma dict_get_set_other : forall d k k' v,
  k <> k' -> dict_get (dict_set d k v) k' = dict_get d k'.
Proof.
  induction d as [|[k0 y] d IH]; intros k k' v Hne; simpl.
  - destruct (String.eqb_spec k k'); [contradiction | reflexivity].
  - destruct (String.eqb_spec k0 k) as [->|Hne0]; simpl.
    + destruct (String.eqb_spec k k'); [contradiction | reflexivity].
    + destruct (String.eqb_spec k0 k'); [reflexivity | now apply IH].
Qed.

End Dict.

(** ** Registration *)

Section RegistryProperties.

Variable H : hashlib.
Variable fs : string -> option (list Byte.byte).
Variable os_path_isfile : string -> bool.
Variable vt_get_file_report : string -> pyval.


Ltac run_add_file :=
  unfold add_file, simpleFile_init, calculate_hash, bind, lift, get,
    modify, ret, sf_get_hash, sf_get_file_name; cbn [sf_hash sf_file_name].

Lemma add_file_unreadable : forall file self,
  fs file = None -> add_file H fs file self = (self, Raise (OSError file)).
Proof.
  intros file self Hfs. run_add_file. now rewrite Hfs.
Qed.

Lemma add_file_known : forall file data existing self,
  fs file = Some data ->
  dict_get (hash_dict self) (hash_bytes H data) = Some existing ->
  add_file H fs file self =
  ({| hash_dict := dict_set (hash_dict self) (hash_bytes H data)
                     (add_file_name file existing) |}, Ok tt).
Proof.
  intros file data existing self Hfs Hget. run_add_file.
  rewrite Hfs. cbn. now rewrite Hget.
Qed.

Lemma add_file_new : forall file data self,
  fs file = Some data ->
  dict_get (hash_dict self) (hash_bytes H data) = None ->
  add_file H fs file self =
  ({| hash_dict := hash_dict self ++
        [(hash_bytes H data,
          observedEntity_init {| sf_file_name := file; sf_hash := hash_bytes H data |})] |},
   Ok tt).
Proof.
  intros file data self Hfs Hget. run_add_file.
  rewrite Hfs. cbn. rewrite Hget. cbn. now rewrite dict_set_absent.
Qed.

Lemma entity_grows_refl : forall item, entity_grows item item.
Proof.
  intros item. repeat split. exists []. now rewrite app_nil_r.
Qed.

Lemma entity_grows_trans : forall a b c,
  entity_grows a b -> entity_grows b c -> entity_grows a c.
Proof.
  intros a b c (Hk1 & Hh1 & add1 & Hf1) (Hk2 & Hh2 & add2 & Hf2).
  repeat split; try congruence.
  exists (add1 ++ add2). now rewrite Hf2, Hf1, app_assoc.
Qed.

Lemma Forall2_entity_grows_refl : forall d, Forall2 entity_grows d d.
Proof.
  induction d; constructor; auto using entity_grows_refl.
Qed.

Lemma Forall2_entity_grows_trans : forall d1 d2 d3,
  Forall2 entity_grows d1 d2 -> Forall2 entity_grows d2 d3 ->
  Forall2 entity_grows d1 d3.
Proof.
  intros d1 d2 d3 H12. revert d3.
  induction H12 as [|a b d1 d2 Hab _ IH]; intros d3 H23.
  - inversion H23. constructor.
  - inversion H23 as [|? c ? d3' Hbc H23']; subst.
    constructor; eauto using entity_grows_trans.
Qed.

Lemma registry_grows_refl : forall self, registry_grows self self.
Proof.
  intros self. exists (hash_dict self), []. split.
  - now rewrite app_nil_r.
  - apply Forall2_entity_grows_refl.
Qed.

Lemma registry_grows_trans : forall h1 h2 h3,
  registry_grows h1 h2 -> registry_grows h2 h3 -> registry_grows h1 h3.
Proof.
  intros h1 h2 h3 (kept1 & fresh1 & E1 & F1) (kept2 & fresh2 & E2 & F2).
  rewrite E1 in F2. apply Forall2_app_inv_l in F2.
  destruct F2 as (a & b & Fa & Fb & ->).
  exists a, (b ++ fresh2). split.
  - now rewrite E2, app_assoc.
  - eapply Forall2_entity_grows_trans; eassumption.
Qed.

(** Nothing is removed: the old keys are a prefix of the new keys. *)
Lemma registry_grows_keys : forall old new,
  registry_grows old new ->
  exists fresh, keys (hash_dict new) = keys (hash_dict old) ++ fresh.
Proof.
  intros old new (kept & fresh & E & F).
  exists (keys fresh). rewrite E. unfold keys. rewrite map_app. f_equal.
  clear E. induction F as [|a b d1 d2 (Hk & _) _ IH]; simpl; congruence.
Qed.

Lemma add_file_grows : forall file self,
  registry_grows self (state_after (add_file H fs file) self).
Proof.
  intros file self. unfold state_after.
  destruct (fs file) as [data|] eqn:Hfs.
  - destruct (dict_get (hash_dict self) (hash_bytes H data)) as [existing|] eqn:Hget.
    + rewrite (add_file_known _ _ _ _ Hfs Hget). cbn [fst hash_dict].
      destruct (dict_set_present _ _ _ (add_file_name file existing) Hget)
        as (d1 & d2 & E & -> & _).
      exists (d1 ++ (hash_bytes H data, add_file_name file existing) :: d2), [].
      split; [now rewrite app_nil_r|]. rewrite E.
      apply Forall2_app; [apply Forall2_entity_grows_refl|].
      constructor; [|apply Forall2_entity_grows_refl].
      repeat split. now exists [file].
    + rewrite (add_file_new _ _ _ Hfs Hget). cbn [fst hash_dict].
      eexists _, _. split; [reflexivity | apply Forall2_entity_grows_refl].
  - rewrite (add_file_unreadable _ _ Hfs). apply registry_grows_refl.
Qed.

Lemma calculate_hash_readable : forall file data,
  fs file = Some data -> calculate_hash H fs file = Ok (hash_bytes H data).
Proof.
  intros file data Hfs. unfold calculate_hash. now rewrite Hfs.
Qed.

Lemma add_file_consistent : forall file self,
  registry_consistent H fs self ->
  registry_consistent H fs (state_after (add_file H fs file) self).
Proof.
  intros file self [Hnd Hall]. unfold state_after.
  destruct (fs file) as [data|] eqn:Hfs.
  - destruct (dict_get (hash_dict self) (hash_bytes H data)) as [existing|] eqn:Hget.
    + rewrite (add_file_known _ _ _ _ Hfs Hget). cbn [fst].
      split; cbn [hash_dict].
      * now rewrite (keys_dict_set_present _ _ _ _ Hget).
      * destruct (dict_set_present _ _ _ (add_file_name file existing) Hget)
          as (d1 & d2 & E & -> & _).
        rewrite E in Hall. apply Forall_app in Hall. destruct Hall as [H1 H2].
        inversion H2 as [|? ? [Hk Hfiles] H2']; subst.
        apply Forall_app. split; [exact H1|]. constructor; [|exact H2'].
        cbn in *. split; [exact Hk|].
        apply Forall_app. split; [exact Hfiles|]. constructor; [|constructor].
        cbn. rewrite Hk. now apply calculate_hash_readable.
    + rewrite (add_file_new _ _ _ Hfs Hget). cbn [fst].
      split; cbn [hash_dict].
      * unfold keys. rewrite map_app. cbn.
        apply NoDup_app; [exact Hnd | repeat constructor; intros [] | ].
        intros k Hin [<-|[]]. now apply dict_get_none in Hget.
      * apply Forall_app. split; [exact Hall|]. constructor; [|constructor].
        split; cbn; [reflexivity|]. constructor; [|constructor].
        now apply calculate_hash_readable.
  - now rewrite (add_file_unreadable _ _ Hfs).
Qed.

End RegistryProperties.

(** ** Polling *)

Section Polling.

Variable H : hashlib.
Variable fs : string -> option (list Byte.byte).
Variable os_path_isfile : string -> bool.
Variable vt_get_file_report : string -> pyval.

Lemma queries_app : forall w1 w2, queries (w1 ++ w2) = queries w1 ++ queries w2.
Proof. intros. apply flat_map_app. Qed.

Lemma sleeps_app : forall w1 w2, sleeps (w1 ++ w2) = sleeps w1 ++ sleeps w2.
Proof. intros. apply flat_map_app. Qed.

Lemma queries_polled_trace : forall wt items,
  queries (polled_trace wt items) = keys items.
Proof.
  intros wt items. induction items as [|[k e] items IH]; simpl; congruence.
Qed.

Lemma sleeps_polled_trace : forall wt items,
  sleeps (polled_trace wt items) = repeat wt (List.length items).
Proof.
  intros wt items. induction items as [|[k e] items IH]; simpl; congruence.
Qed.

(** The shape of every poll: the entities before the one that raised,
    if any, were each queried and followed by a sleep. *)
Lemma poll_shape : forall wt items w,
  exists polled pending,
    items = polled ++ pending /\
    snd (fst (poll vt_get_file_report wt items w)) =
      w ++ polled_trace wt polled ++
      match pending with [] => [] | item :: _ => [EvQuery (fst item)] end /\
    (snd (poll vt_get_file_report wt items w) = Ok tt -> pending = []) /\
    Forall2 same_files items (fst (fst (poll vt_get_file_report wt items w))).
Proof.
  intros wt items. induction items as [|[k e] items IH]; intros w.
  - exists [], []. cbn. rewrite app_nil_r. repeat split. constructor.
  - cbn [poll]. unfold get_file_report_events, time_sleep, emit, bind, modify, ret.
    pose proof (avr_files_hash (vt_get_file_report k) e) as [Hfiles Hhash].
    unfold state_after in Hfiles, Hhash.
    destruct (add_virustotal_result (vt_get_file_report k) e) as [e' [[]|ex]].
    + destruct (IH ((w ++ [EvQuery k]) ++ [EvSleep wt]))
        as (polled & pending & E & Htrace & Hok & Hsame).
      destruct (poll vt_get_file_report wt items ((w ++ [EvQuery k]) ++ [EvSleep wt]))
        as [[items' w'] r].
      cbn [fst snd] in *.
      exists ((k, e) :: polled), pending. repeat split.
      * now rewrite E.
      * rewrite Htrace. cbn. now rewrite <- !app_assoc.
      * exact Hok.
      * constructor; [now repeat split | exact Hsame].
    + exists [], ((k, e) :: items). cbn [fst snd]. repeat split.
      * discriminate.
      * constructor; [now repeat split|].
        clear. induction items; constructor; [now repeat split | assumption].
Qed.

Lemma same_files_keys : forall d d', Forall2 same_files d d' -> keys d' = keys d.
Proof.
  induction 1 as [|a b d d' (Hk & _) _ IH]; simpl; congruence.
Qed.

Lemma same_files_grows : forall d d', Forall2 same_files d d' -> Forall2 entity_grows d d'.
Proof.
  induction 1 as [|a b d d' (Hk & Hh & Hf) _ IH]; constructor; auto.
  repeat split; auto. exists []. now rewrite app_nil_r.
Qed.

Lemma same_files_consistent : forall d d',
  Forall2 same_files d d' ->
  Forall (entity_consistent H fs) d -> Forall (entity_consistent H fs) d'.
Proof.
  induction 1 as [|a b d d' (Hk & Hh & Hf) _ IH]; intros Hall.
  - constructor.
  - inversion Hall as [|? ? [Hkey Hfiles] Hall']; subst.
    constructor; [|auto]. split.
    + congruence.
    + rewrite Hf, Hh. exact Hfiles.
Qed.

(** The report prints; it neither queries nor sleeps. *)
Lemma report_quiet : forall items w,
  queries (fst (report items w)) = queries w /\
  sleeps (fst (report items w)) = sleeps w.
Proof.
  induction items as [|[k e] items IH]; intros w.
  - split; reflexivity.
  - cbn [report]. unfold is_malicious, emit, bind, modify, lift, ret.
    destruct (py_truediv (count_alerting_scanners e) (count_total_scanners e))
      as [ratio|ex]; cbn [fst snd]; [|split; reflexivity].
    destruct (float_ge ratio float_0_1); cbn [fst snd];
      match goal with |- context [report items ?w'] =>
        destruct (IH w') as [Hq Hs]; destruct (report items w') as [w'' r]
      end; cbn [fst snd] in *; rewrite Hq, Hs, ?queries_app, ?sleeps_app;
      cbn; now rewrite ?app_nil_r.
Qed.

End Polling.

(** ** The registration loop and the script *)

Section Script.

Variable H : hashlib.
Variable fs : string -> option (list Byte.byte).
Variable os_path_isfile : string -> bool.
Variable vt_get_file_report : string -> pyval.

Lemma register_files_cons : forall file rest self,
  register_files H fs os_path_isfile (file :: rest) self =
  if os_path_isfile file then
    match add_file H fs file self with
    | (self', Ok _) => register_files H fs os_path_isfile rest self'
    | (self', Raise e) => (self', Raise e)
    end
  else register_files H fs os_path_isfile rest self.
Proof.
  intros file rest self. cbn [register_files]. unfold bind.
  destruct (os_path_isfile file); [|reflexivity].
  destruct (add_file H fs file self) as [self' [[]|e]]; reflexivity.
Qed.

Lemma register_files_consistent : forall paths self,
  registry_consistent H fs self ->
  registry_consistent H fs (state_after (register_files H fs os_path_isfile paths) self).
Proof.
  induction paths as [|file rest IH]; intros self Hinv; unfold state_after in *.
  - exact Hinv.
  - rewrite register_files_cons. destruct (os_path_isfile file); [|auto].
    pose proof (add_file_consistent H fs file self Hinv) as Hstep.
    unfold state_after in Hstep.
    destruct (add_file H fs file self) as [self' [[]|e]]; cbn [fst] in *; auto.
Qed.

Lemma register_files_grows : forall paths self,
  registry_grows self (state_after (register_files H fs os_path_isfile paths) self).
Proof.
  induction paths as [|file rest IH]; intros self; unfold state_after in *.
  - apply registry_grows_refl.
  - rewrite register_files_cons. destruct (os_path_isfile file); [|auto].
    pose proof (add_file_grows H fs file self) as Hstep.
    unfold state_after in Hstep.
    destruct (add_file H fs file self) as [self' [[]|e]]; cbn [fst] in *; auto.
    eapply registry_grows_trans; [exact Hstep | apply IH].
Qed.

(** With every registered file readable the loop does not raise. *)
Lemma register_files_ok : forall paths self,
  readable fs (registered os_path_isfile paths) ->
  outcome (register_files H fs os_path_isfile paths) self = Ok tt.
Proof.
  induction paths as [|file rest IH]; intros self Hread; unfold outcome in *.
  - reflexivity.
  - rewrite register_files_cons. unfold registered in Hread. cbn [filter] in Hread.
    destruct (os_path_isfile file); [|auto].
    inversion Hread as [|? ? Hfile Hrest]; subst.
    destruct (fs file) as [data|] eqn:Hfs; [|contradiction].
    destruct (dict_get (hash_dict self) (hash_bytes H data)) as [existing|] eqn:Hget.
    + rewrite (add_file_known _ _ _ _ _ _ Hfs Hget). auto.
    + rewrite (add_file_new _ _ _ _ _ Hfs Hget). auto.
Qed.

Lemma keys_add_file : forall file data self k,
  fs file = Some data ->
  In k (keys (hash_dict (state_after (add_file H fs file) self))) <->
  In k (keys (hash_dict self)) \/ k = hash_bytes H data.
Proof.
  clear os_path_isfile vt_get_file_report.
  intros file data self k Hfs. unfold state_after.
  destruct (dict_get (hash_dict self) (hash_bytes H data)) as [existing|] eqn:Hget.
  - rewrite (add_file_known _ _ _ _ _ _ Hfs Hget). cbn [fst hash_dict].
    rewrite (keys_dict_set_present _ _ _ _ Hget).
    split; [tauto|]. intros [Hin| ->]; [exact Hin|].
    eapply dict_get_some_key; eassumption.
  - rewrite (add_file_new _ _ _ _ _ Hfs Hget). cbn [fst hash_dict].
    unfold keys. rewrite map_app, in_app_iff. cbn. intuition congruence.
Qed.

(** The keys after registration: the old keys and the digests of the
    registered files. *)
Lemma register_files_keys : forall paths self k,
  readable fs (registered os_path_isfile paths) ->
  In k (keys (hash_dict (state_after (register_files H fs os_path_isfile paths) self))) <->
  In k (keys (hash_dict self)) \/ In k (digests H fs (registered os_path_isfile paths)).
Proof.
  clear vt_get_file_report.
  induction paths as [|file rest IH]; intros self k Hread; unfold state_after in *.
  - cbn. tauto.
  - rewrite register_files_cons. unfold registered in *. cbn [filter] in *.
    destruct (os_path_isfile file); [|auto].
    inversion Hread as [|? ? Hfile Hrest]; subst.
    destruct (fs file) as [data|] eqn:Hfs; [|contradiction].
    pose proof (keys_add_file file data self k Hfs) as Hstep.
    unfold state_after in Hstep.
    assert (Hok : snd (add_file H fs file self) = Ok tt).
    { destruct (dict_get (hash_dict self) (hash_bytes H data)) as [existing|] eqn:Hget.
      - now rewrite (add_file_known _ _ _ _ _ _ Hfs Hget).
      - now rewrite (add_file_new _ _ _ _ _ Hfs Hget). }
    destruct (add_file H fs file self) as [self' r]. cbn [fst snd] in *. subst r.
    rewrite (IH self' k Hrest), Hstep.
    unfold digests, contents. cbn [flat_map]. rewrite Hfs. cbn. intuition congruence.
Qed.

Lemma dict_get_app_l : forall (d1 d2 : list (string * observedEntity)) k e,
  dict_get d1 k = Some e -> dict_get (d1 ++ d2) k = Some e.
Proof.
  induction d1 as [|[k' x] d1 IH]; intros d2 k e; simpl.
  - discriminate.
  - destruct (String.eqb k' k); auto.
Qed.

(** A file name listed under a hash stays listed under it. *)
Lemma registry_grows_listed : forall old new k e file,
  registry_grows old new ->
  dict_get (hash_dict old) k = Some e -> In file (files e) ->
  exists e', dict_get (hash_dict new) k = Some e' /\ In file (files e').
Proof.
  intros old new k e file (kept & fresh & E & F) Hget Hin.
  rewrite E. clear E.
  assert (exists e', dict_get kept k = Some e' /\ In file (files e')) as (e' & G & I).
  { induction F as [|[k1 e1] [k2 e2] d d' (Hk & _ & added & Hf) _ IH];
      cbn in *; [discriminate|]. subst k2.
    destruct (String.eqb k1 k).
    - injection Hget as ->. exists e2. split; [reflexivity|].
      rewrite Hf. apply in_or_app. now left.
    - auto. }
  exists e'. split; [now apply dict_get_app_l | exact I].
Qed.

Lemma add_file_listed : forall file data self,
  fs file = Some data ->
  exists e,
    dict_get (hash_dict (state_after (add_file H fs file) self)) (hash_bytes H data)
      = Some e /\
    exists before, files e = before ++ [file].
Proof.
  intros file data self Hfs. unfold state_after.
  destruct (dict_get (hash_dict self) (hash_bytes H data)) as [existing|] eqn:Hget.
  - rewrite (add_file_known _ _ _ _ _ _ Hfs Hget). cbn [fst hash_dict].
    rewrite dict_get_set_same. eexists. split; [reflexivity|].
    now exists (files existing).
  - rewrite (add_file_new _ _ _ _ _ Hfs Hget). cbn [fst hash_dict].
    rewrite <- (dict_set_absent _ _ _ Hget), dict_get_set_same.
    eexists. split; [reflexivity|]. now exists [].
Qed.

(** Every registered file is listed under the digest of its content. *)
Lemma register_files_listed : forall paths self file data,
  readable fs (registered os_path_isfile paths) ->
  In file (registered os_path_isfile paths) ->
  fs file = Some data ->
  exists e,
    dict_get (hash_dict (state_after (register_files H fs os_path_isfile paths) self))
      (hash_bytes H data) = Some e /\
    In file (files e).
Proof.
  induction paths as [|f rest IH]; intros self file data Hread Hin Hfs;
    unfold state_after in *.
  - contradiction.
  - rewrite register_files_cons. unfold registered in *. cbn [filter] in *.
    destruct (os_path_isfile f) eqn:Hisfile; [|auto].
    inversion Hread as [|? ? Hf Hrest]; subst.
    destruct (fs f) as [data_f|] eqn:Hfs_f; [|contradiction].
    assert (Hok : snd (add_file H fs f self) = Ok tt).
    { destruct (dict_get (hash_dict self) (hash_bytes H data_f)) as [existing|] eqn:Hget.
      - now rewrite (add_file_known _ _ _ _ _ _ Hfs_f Hget).
      - now rewrite (add_file_new _ _ _ _ _ Hfs_f Hget). }
    pose proof (add_file_listed f data_f self Hfs_f) as (e & Hget & before & Hfiles).
    unfold state_after in Hget.
    destruct (add_file H fs f self) as [self' r]. cbn [fst snd] in *. subst r.
    destruct Hin as [->|Hin].
    + assert (data_f = data) as -> by congruence.
      apply (registry_grows_listed self' _ _ e file).
      * apply (register_files_grows rest self').
      * exact Hget.
      * rewrite Hfiles. apply in_or_app. right. now left.
    + now apply IH.
Qed.

(** The three phases of the script. *)
Lemma run_phases : forall paths,
  run H fs os_path_isfile vt_get_file_report paths =
  match register_files H fs os_path_isfile paths entityHandler_init with
  | (self, Raise e) => ((self, []), Raise e)
  | (self, Ok _) =>
      match poll vt_get_file_report (if count_entities self <=? 4 then 0 else 15)
              (hash_dict self) [] with
      | ((items, w), Raise e) => (({| hash_dict := items |}, w), Raise e)
      | ((items, w), Ok _) =>
          match report items w with
          | (w', r) => (({| hash_dict := items |}, w'), r)
          end
      end
  end.
Proof.
  intros paths. unfold run, script, bind, on_fst, on_snd, get,
    retrieve_virustotal_results, get_entities. cbn [fst snd].
  destruct (register_files H fs os_path_isfile paths entityHandler_init)
    as [self [[]|e]]; cbn [fst snd]; [|reflexivity].
  destruct (poll vt_get_file_report (if count_entities self <=? 4 then 0 else 15)
              (hash_dict self) []) as [[items w] [[]|e]]; cbn [fst snd]; reflexivity.
Qed.

End Script.

(** ** Counting *)

Lemma NoDup_same_elements_length : forall (l l' : list string),
  NoDup l -> (forall x, In x l <-> In x l') -> List.length l = distinct_strings l'.
Proof.
  intros l l' Hnd Hiff. unfold distinct_strings.
  apply Permutation_length, NoDup_Permutation.
  - exact Hnd.
  - apply NoDup_nodup.
  - intros x. rewrite nodup_In. apply Hiff.
Qed.

Section ClaimsOnTheRegistry.

Variable H : hashlib.
Variable fs : string -> option (list Byte.byte).
Variable os_path_isfile : string -> bool.
Variable vt_get_file_report : string -> pyval.

(** Without collisions there are as many distinct digests as distinct
    contents. *)
Lemma distinct_digests_contents : forall l,
  collision_free H l ->
  distinct_strings (map (hash_bytes H) l) = distinct_contents l.
Proof.
  unfold distinct_strings, distinct_contents.
  induction l as [|c l IH]; intros Hfree.
  - reflexivity.
  - assert (Hfree' : collision_free H l).
    { intros c1 c2 H1 H2. apply Hfree; now right. }
    cbn [map nodup].
    destruct (in_dec string_dec (hash_bytes H c) (map (hash_bytes H) l)) as [Hin|Hnin];
      destruct (in_dec bytes_eq_dec c l) as [Hin'|Hnin']; cbn [List.length];
      rewrite ?(IH Hfree'); try reflexivity.
    + exfalso. apply in_map_iff in Hin. destruct Hin as (c' & Heq & Hc').
      apply Hnin'. rewrite <- (Hfree c' c); auto; [now right | now left].
    + exfalso. apply Hnin. now apply in_map.
Qed.

Lemma entityHandler_init_consistent : registry_consistent H fs entityHandler_init.
Proof.
  split; constructor.
Qed.

Lemma contents_in : forall file_names file data,
  In file file_names -> fs file = Some data -> In data (contents fs file_names).
Proof.
  intros file_names file data Hin Hfs. unfold contents.
  apply in_flat_map. exists file. split; [exact Hin|]. rewrite Hfs. now left.
Qed.

(** C1. When the files the script registers are all readable, any two of
    them with the same bytes are listed by one entity, the one under the
    digest of these bytes, whatever their names; and the number of
    entities is the number of distinct digests, which is the number [K]
    of distinct contents when the digest does not collide on them. *)
Theorem same_content_same_entity :
  forall paths : list string,
    readable fs (registered os_path_isfile paths) ->
    let self := state_after (register_files H fs os_path_isfile paths) entityHandler_init in
    outcome (register_files H fs os_path_isfile paths) entityHandler_init = Ok tt /\
    (forall file1 file2 data,
       In file1 (registered os_path_isfile paths) ->
       In file2 (registered os_path_isfile paths) ->
       fs file1 = Some data -> fs file2 = Some data ->
       exists e,
         dict_get (hash_dict self) (hash_bytes H data) = Some e /\
         In file1 (get_file_names e) /\ In file2 (get_file_names e)) /\
    count_entities self =
      Z.of_nat (distinct_strings (digests H fs (registered os_path_isfile paths))) /\
    (collision_free H (contents fs (registered os_path_isfile paths)) ->
     count_entities self =
       Z.of_nat (distinct_contents (contents fs (registered os_path_isfile paths)))).
Proof.
  clear vt_get_file_report.
  intros paths Hread self.
  assert (Hcount : count_entities self =
    Z.of_nat (distinct_strings (digests H fs (registered os_path_isfile paths)))).
  { unfold count_entities. f_equal.
    rewrite <- (length_map fst).
    apply NoDup_same_elements_length.
    - apply (register_files_consistent H fs os_path_isfile paths entityHandler_init).
      apply entityHandler_init_consistent.
    - intros k. subst self.
      rewrite (register_files_keys H fs os_path_isfile paths entityHandler_init k Hread).
      cbn. tauto. }
  split; [now apply register_files_ok|]. split; [|split].
  - intros file1 file2 data Hin1 Hin2 Hfs1 Hfs2.
    destruct (register_files_listed H fs os_path_isfile paths entityHandler_init
                file1 data Hread Hin1 Hfs1) as (e1 & Hget1 & Hl1).
    destruct (register_files_listed H fs os_path_isfile paths entityHandler_init
                file2 data Hread Hin2 Hfs2) as (e2 & Hget2 & Hl2).
    fold self in Hget1, Hget2. rewrite Hget1 in Hget2. injection Hget2 as <-.
    exists e1. auto.
  - exact Hcount.
  - intros Hfree. rewrite Hcount. f_equal.
    now apply distinct_digests_contents.
Qed.

Lemma on_fst_state : forall (A : Type) (m : M entityHandler A) (st : entityHandler * world),
  state_after (on_fst m) st = (state_after m (fst st), snd st).
Proof.
  intros A m st. unfold state_after, on_fst. now destruct (m (fst st)).
Qed.

Lemma count_entities_keys : forall self,
  count_entities self = Z.of_nat (List.length (keys (hash_dict self))).
Proof.
  intros self. unfold count_entities, keys. now rewrite length_map.
Qed.

(** C10. A path registered twice is listed twice: registering [file] a
    second time appends its name once more to the entity of its digest
    and adds no entity; from the empty registry the result is a single
    entity listing [file; file]. *)
Theorem duplicate_path_listed_twice :
  forall (file : string) (data : list Byte.byte) (self : entityHandler),
    fs file = Some data ->
    let once := state_after (add_file H fs file) self in
    let twice := state_after (add_file H fs file) once in
    (exists e before,
       dict_get (hash_dict once) (hash_bytes H data) = Some e /\
       get_file_names e = before ++ [file] /\
       dict_get (hash_dict twice) (hash_bytes H data) = Some (add_file_name file e) /\
       get_file_names (add_file_name file e) = before ++ [file; file]) /\
    count_entities twice = count_entities once /\
    (self = entityHandler_init ->
     exists e,
       hash_dict twice = [(hash_bytes H data, e)] /\
       get_file_names e = [file; file] /\
       count_entities twice = 1).
Proof.
  clear os_path_isfile vt_get_file_report.
  intros file data self Hfs once twice.
  destruct (add_file_listed H fs file data self Hfs) as (e & Hget & before & Hfiles).
  fold once in Hget.
  assert (Htwice : twice =
    {| hash_dict := dict_set (hash_dict once) (hash_bytes H data) (add_file_name file e) |}).
  { subst twice. unfold state_after at 1.
    now rewrite (add_file_known H fs _ _ _ _ Hfs Hget). }
  split; [|split].
  - exists e, before. split; [exact Hget|]. split; [exact Hfiles|]. split.
    + rewrite Htwice. cbn [hash_dict]. apply dict_get_set_same.
    + unfold get_file_names, add_file_name. cbn [files set_files].
      rewrite Hfiles, <- app_assoc. reflexivity.
  - rewrite !count_entities_keys, Htwice. cbn [hash_dict].
    now rewrite (keys_dict_set_present _ _ _ _ Hget).
  - intros ->. rewrite Htwice. subst once. unfold state_after in *.
    rewrite (add_file_new H fs file data entityHandler_init Hfs eq_refl) in *.
    cbn in Hget |- *.
    rewrite String.eqb_refl in *. injection Hget as <-.
    eexists. split; [reflexivity|]. split; reflexivity.
Qed.

Lemma perform_consistent : forall op st,
  registry_consistent H fs (fst st) ->
  registry_consistent H fs (fst (state_after (perform H fs vt_get_file_report op) st)) /\
  registry_grows (fst st) (fst (state_after (perform H fs vt_get_file_report op) st)).
Proof.
  clear os_path_isfile.
  intros [file|] st Hinv; cbn [perform].
  - rewrite on_fst_state. cbn [fst]. split.
    + now apply add_file_consistent.
    + apply add_file_grows.
  - unfold state_after, retrieve_virustotal_results, get_entities.
    destruct (poll_shape vt_get_file_report
                (if count_entities (fst st) <=? 4 then 0 else 15)
                (hash_dict (fst st)) (snd st)) as (_ & _ & _ & _ & _ & Hsame).
    destruct (poll vt_get_file_report _ (hash_dict (fst st)) (snd st))
      as [[items w] r]. cbn [fst snd] in *.
    destruct Hinv as [Hnd Hall]. split; [split|]; cbn [hash_dict].
    + now rewrite (same_files_keys _ _ Hsame).
    + eapply same_files_consistent; eassumption.
    + exists items, []. split; [now rewrite app_nil_r|].
      now apply same_files_grows.
Qed.

(** C7. Every operation of the handler, and so every sequence of them,
    keeps the invariant of the registry (unique keys, every entity under
    its own hash, every listed file name hashing to it) and only extends
    the registry: each entity stays at its place with its key and hash,
    its old file names are a prefix of the new ones, and new entities
    come after the old ones, so that no key is removed. *)
Theorem registry_invariant_preserved :
  forall (ops : list operation) (st : entityHandler * world),
    registry_consistent H fs (fst st) ->
    let st' := perform_all H fs vt_get_file_report ops st in
    registry_consistent H fs (fst st') /\
    registry_grows (fst st) (fst st') /\
    exists fresh, keys (hash_dict (fst st')) = keys (hash_dict (fst st)) ++ fresh.
Proof.
  clear os_path_isfile.
  intros ops st Hinv st'.
  assert (Hboth : registry_consistent H fs (fst st') /\ registry_grows (fst st) (fst st')).
  { subst st'. revert st Hinv. unfold perform_all.
    induction ops as [|op ops IH]; intros st Hinv; cbn [fold_left].
    - split; [exact Hinv | apply registry_grows_refl].
    - destruct (perform_consistent op st Hinv) as [Hinv1 Hgrow1].
      destruct (IH _ Hinv1) as [Hinv2 Hgrow2].
      split; [exact Hinv2|]. eapply registry_grows_trans; eassumption. }
  destruct Hboth as [Hc Hg]. split; [exact Hc|]. split; [exact Hg|].
  now apply registry_grows_keys.
Qed.



End ClaimsOnTheRegistry.

Lemma same_content_same_entity_witness :
  let self := state_after (register_files plain_hashlib fs3 (fun _ => true)
                             ["dir/A"; "dir/sub/B"; "dir/C"]) entityHandler_init in
  (exists e,
     dict_get (hash_dict self) "same" = Some e /\
     In "dir/A" (get_file_names e) /\ In "dir/sub/B" (get_file_names e)) /\
  count_entities self = 2.
Proof.
  assert (Hread : readable fs3 (registered (fun _ => true) ["dir/A"; "dir/sub/B"; "dir/C"])).
  { repeat constructor; discriminate. }
  destruct (same_content_same_entity plain_hashlib fs3 (fun _ => true)
              ["dir/A"; "dir/sub/B"; "dir/C"] Hread) as (_ & Hsame & _ & Hcount).
  split.
  - apply (Hsame "dir/A" "dir/sub/B" (bytes_of "same")).
    + now left.
    + right. now left.
    + reflexivity.
    + reflexivity.
  - apply Hcount. intros c1 c2 H1 H2 Heq.
    cbn in H1, H2.
    destruct H1 as [<-|[<-|[<-|[]]]]; destruct H2 as [<-|[<-|[<-|[]]]];
      solve [reflexivity | discriminate Heq].
Defined.

Lemma duplicate_path_listed_twice_witness :
  let twice := state_after (add_file plain_hashlib fs3 "dir/A")
                 (state_after (add_file plain_hashlib fs3 "dir/A") entityHandler_init) in
  exists e,
    hash_dict twice = [("same", e)] /\
    get_file_names e = ["dir/A"; "dir/A"] /\
    count_entities twice = 1.
Proof.
  exact (proj2 (proj2 (duplicate_path_listed_twice plain_hashlib fs3
                         "dir/A" (bytes_of "same") entityHandler_init eq_refl))
           eq_refl).
Defined.

Lemma registry_invariant_preserved_witness :
  let ops := [Add_file "dir/A"; Add_file "dir/sub/B"; Retrieve_virustotal_results;
              Add_file "dir/C"; Add_file "missing"; Add_file "dir/A"] in
  let st' := perform_all plain_hashlib fs3 (fun _ => unknown_report) ops
               (entityHandler_init, []) in
  registry_consistent plain_hashlib fs3 (fst st') /\
  registry_grows entityHandler_init (fst st') /\
  exists fresh, keys (hash_dict (fst st')) = keys (hash_dict entityHandler_init) ++ fresh.
Proof.
  apply (registry_invariant_preserved plain_hashlib fs3 (fun _ => unknown_report)
           _ (entityHandler_init, [])).
  split; constructor.
Defined.



(** With five entities the script pauses five times, not four. *)
Lemma five_entities_five_pauses :
  let res := run plain_hashlib fs5 (fun _ => true) (fun _ => unknown_report) five_files in
  count_entities (fst (fst res)) = 5 /\
  sleeps (snd (fst res)) = [15; 15; 15; 15; 15] /\
  List.length (sleeps (snd (fst res))) <> 4%nat.
Proof.
  split; [reflexivity|]. split; [reflexivity | discriminate].
Qed.

(** ** Binary64 rounding *)

Lemma digits2_pos_size : forall p, digits2_pos p = Pos.size p.
Proof.
  induction p as [p IH|p IH|]; simpl; congruence.
Qed.

Lemma Zdigits2_log2 : forall p, Zpos (digits2_pos p) = Z.log2 (Zpos p) + 1.
Proof.
  intros [p|p|]; cbn [digits2_pos Z.log2]; rewrite ?digits2_pos_size; lia.
Qed.

(** A positive number of [n] binary digits lies in [[2^(n-1), 2^n)]. *)
Lemma Zdigits2_unique : forall m n,
  2 ^ (n - 1) <= m < 2 ^ n -> 0 < n -> Zdigits2 m = n.
Proof.
  intros m n Hm Hn.
  assert (0 < m).
  { apply Z.lt_le_trans with (2 ^ (n - 1)); [apply Z.pow_pos_nonneg; lia | tauto]. }
  destruct m as [|p|p]; try lia. cbn [Zdigits2].
  rewrite Zdigits2_log2.
  assert (Hlog : Z.log2 (Zpos p) = n - 1).
  { apply Z.log2_unique; [lia|]. now replace (Z.succ (n - 1)) with n by lia. }
  lia.
Qed.

Lemma Zdigits2_bounds : forall p,
  2 ^ (Zpos (digits2_pos p) - 1) <= Zpos p < 2 ^ Zpos (digits2_pos p).
Proof.
  intros p. rewrite Zdigits2_log2.
  replace (Z.log2 (Zpos p) + 1 - 1) with (Z.log2 (Zpos p)) by lia.
  rewrite Z.add_1_r. apply Z.log2_spec. lia.
Qed.

Lemma shr_m_shr_1 : forall r, 0 <= shr_m r -> shr_m (shr_1 r) = shr_m r / 2.
Proof.
  intros [m r s] Hm. cbn in Hm.
  destruct m as [|[p|p|]|p]; cbn [shr_1 shr_m]; try lia; try reflexivity;
    first [rewrite (Pos2Z.inj_xI p) | rewrite (Pos2Z.inj_xO p)];
    Z.to_euclidean_division_equations; lia.
Qed.

Lemma shr_m_iter_pos : forall n r,
  0 <= shr_m r -> shr_m (iter_pos shr_1 n r) = shr_m r / 2 ^ Zpos n.
Proof.
  assert (Hstep : forall r, 0 <= shr_m r -> 0 <= shr_m (shr_1 r)).
  { intros r Hr. rewrite shr_m_shr_1 by exact Hr. apply Z.div_pos; lia. }
  induction n as [n IH|n IH|]; intros r Hr; cbn [iter_pos].
  - assert (HP : 0 < 2 ^ Zpos n) by (apply Z.pow_pos_nonneg; lia).
    assert (Hpow : 2 ^ Zpos n~1 = 2 * (2 ^ Zpos n * 2 ^ Zpos n)).
    { replace (Zpos n~1) with (Zpos n + Zpos n + 1) by lia.
      rewrite !Z.pow_add_r by lia. ring. }
    assert (Hin : 0 <= shr_m (iter_pos shr_1 n (shr_1 r))).
    { rewrite IH by auto. apply Z.div_pos; auto. }
    rewrite (IH _ Hin), (IH _ (Hstep r Hr)), (shr_m_shr_1 r Hr), Hpow.
    rewrite <- (Z.div_div (shr_m r) 2 (2 ^ Zpos n * 2 ^ Zpos n)) by lia.
    rewrite <- (Z.div_div (shr_m r / 2) (2 ^ Zpos n) (2 ^ Zpos n)) by lia.
    reflexivity.
  - assert (HP : 0 < 2 ^ Zpos n) by (apply Z.pow_pos_nonneg; lia).
    assert (Hpow : 2 ^ Zpos n~0 = 2 ^ Zpos n * 2 ^ Zpos n).
    { replace (Zpos n~0) with (Zpos n + Zpos n) by lia.
      rewrite Z.pow_add_r by lia. ring. }
    assert (Hin : 0 <= shr_m (iter_pos shr_1 n r)).
    { rewrite IH by auto. apply Z.div_pos; auto. }
    rewrite (IH _ Hin), (IH _ Hr), Hpow.
    rewrite <- (Z.div_div (shr_m r) (2 ^ Zpos n) (2 ^ Zpos n)) by lia.
    reflexivity.
  - now rewrite shr_m_shr_1.
Qed.

Lemma round_nearest_even_bounds : forall m l,
  m <= round_nearest_even m l <= m + 1.
Proof.
  intros m [|[]]; cbn; try lia. destruct (Z.even m); lia.
Qed.

Lemma loc_of_shr_record_of_loc : forall m l,
  loc_of_shr_record (shr_record_of_loc m l) = l.
Proof.
  intros m [|[]]; reflexivity.
Qed.

Lemma shr_m_of_loc : forall m l, shr_m (shr_record_of_loc m l) = m.
Proof.
  intros m [|[]]; reflexivity.
Qed.

(** Renormalisation after rounding: a mantissa that reached [2^53] is
    halved. *)
Lemma shr_fexp_rounded : forall m e,
  4503599627370496 <= m <= 9007199254740992 -> -1074 <= e ->
  shr_fexp prec emax m e loc_Exact =
  if m <? 9007199254740992
  then ({| shr_m := m; shr_r := false; shr_s := false |}, e)
  else ({| shr_m := 4503599627370496; shr_r := false; shr_s := false |}, e + 1).
Proof.
  intros m e Hm He. unfold shr_fexp, fexp, emin, prec, emax.
  destruct (Z.ltb_spec m 9007199254740992) as [Hlt|Hge].
  - rewrite (Zdigits2_unique m 53) by (cbn; lia).
    replace (Z.max (53 + e - 53) (3 - 1024 - 53) - e) with 0 by lia.
    reflexivity.
  - assert (m = 9007199254740992) as -> by lia.
    cbn [Zdigits2 digits2_pos Pos.succ].
    replace (Z.max (54 + e - 53) (3 - 1024 - 53) - e) with 1 by lia.
    reflexivity.
Qed.

Lemma pow2_52_digits : forall p,
  4503599627370496 <= Zpos p -> 53 <= Zpos (digits2_pos p).
Proof.
  intros p Hp. pose proof (Zdigits2_bounds p) as [_ Hlt].
  destruct (Z.le_gt_cases 53 (Zpos (digits2_pos p))) as [Hle|Hgt]; [exact Hle|].
  assert (2 ^ Zpos (digits2_pos p) <= 2 ^ 52) by (apply Z.pow_le_mono_r; lia).
  change (2 ^ 52) with 4503599627370496 in *. lia.
Qed.

(** The first shift of [binary_round_aux] brings a mantissa of at least
    53 digits to exactly 53 digits. *)
Lemma shr_fexp_normal : forall p ex lx,
  4503599627370496 <= Zpos p -> -1074 <= ex ->
  let res := shr_fexp prec emax (Zpos p) ex lx in
  4503599627370496 <= shr_m (fst res) < 9007199254740992 /\
  -1074 <= snd res /\
  snd res = ex + (Zpos (digits2_pos p) - 53).
Proof.
  intros p ex lx Hp Hex res. subst res.
  pose proof (pow2_52_digits p Hp) as HD.
  pose proof (Zdigits2_bounds p) as [Hlo Hhi].
  unfold shr_fexp, fexp, emin, prec, emax. cbn [Zdigits2].
  replace (Z.max (Zpos (digits2_pos p) + ex - 53) (3 - 1024 - 53) - ex)
    with (Zpos (digits2_pos p) - 53) by lia.
  destruct (Zpos (digits2_pos p) - 53) as [|n|n] eqn:Hn; try lia; cbn [shr fst snd].
  - rewrite shr_m_of_loc.
    replace (Zpos (digits2_pos p)) with 53 in * by lia.
    change (2 ^ (53 - 1)) with 4503599627370496 in Hlo.
    change (2 ^ 53) with 9007199254740992 in Hhi. lia.
  - rewrite shr_m_iter_pos by (rewrite shr_m_of_loc; lia).
    rewrite shr_m_of_loc.
    assert (HP : 0 < 2 ^ Zpos n) by (apply Z.pow_pos_nonneg; lia).
    assert (Hlo' : 4503599627370496 * 2 ^ Zpos n <= Zpos p).
    { change 4503599627370496 with (2 ^ 52). rewrite <- Z.pow_add_r by lia.
      now replace (52 + Zpos n) with (Zpos (digits2_pos p) - 1) by lia. }
    assert (Hhi' : Zpos p < 9007199254740992 * 2 ^ Zpos n).
    { change 9007199254740992 with (2 ^ 53). rewrite <- Z.pow_add_r by lia.
      now replace (53 + Zpos n) with (Zpos (digits2_pos p)) by lia. }
    split; [split|lia].
    + apply Z.div_le_lower_bound; lia.
    + apply Z.div_lt_upper_bound; lia.
Qed.

(** Rounding a mantissa of at least 53 digits in the normal range gives
    a finite float or an infinity, never a zero. *)
Lemma binary_round_aux_nonzero : forall sx p ex lx,
  4503599627370496 <= Zpos p -> -1074 <= ex ->
  is_float_zero (binary_round_aux prec emax sx (Zpos p) ex lx) = false.
Proof.
  intros sx p ex lx Hp Hex. unfold binary_round_aux.
  pose proof (shr_fexp_normal p ex lx Hp Hex) as (Hm & He & _).
  destruct (shr_fexp prec emax (Zpos p) ex lx) as [mrs' e']. cbn [fst snd] in *.
  pose proof (round_nearest_even_bounds (shr_m mrs') (loc_of_shr_record mrs')) as Hr.
  rewrite shr_fexp_rounded by lia.
  destruct (Z.ltb_spec (round_nearest_even (shr_m mrs') (loc_of_shr_record mrs'))
              9007199254740992) as [Hlt|Hge]; cbn [shr_m].
  - destruct (round_nearest_even (shr_m mrs') (loc_of_shr_record mrs')) as [|m|m];
      try lia.
    now destruct (e' <=? emax - prec).
  - now destruct (e' + 1 <=? emax - prec).
Qed.

Lemma pos_iter_xO : forall d p, Zpos (Pos.iter xO p d) = Zpos p * 2 ^ Zpos d.
Proof.
  induction d as [|d IH] using Pos.peano_ind; intros p.
  - cbn [Pos.iter]. rewrite Pos2Z.inj_xO. change (2 ^ 1) with 2. lia.
  - rewrite Pos.iter_succ, Pos2Z.inj_xO, IH, Pos2Z.inj_succ, Z.pow_succ_r by lia.
    ring.
Qed.

(** [float(z)] of a positive int is not [0.0]. *)
Lemma int_to_float_positive : forall p f,
  int_to_float (Zpos p) = Ok f -> is_float_zero f = false.
Proof.
  intros p f. unfold int_to_float, binary_normalize, binary_round.
  assert (Hnz : is_float_zero
    (let '(mz, ez) := shl_align p 0 (fexp prec emax (Zpos (digits2_pos p) + 0)) in
     binary_round_aux prec emax false (Zpos mz) ez loc_Exact) = false).
  { pose proof (Zdigits2_bounds p) as [Hlo Hhi].
    unfold shl_align, fexp, emin, prec, emax.
    replace (Z.max (Zpos (digits2_pos p) + 0 - 53) (3 - 1024 - 53) - 0)
      with (Zpos (digits2_pos p) - 53) by lia.
    destruct (Zpos (digits2_pos p) - 53) as [|n|n] eqn:Hn.
    - apply binary_round_aux_nonzero; [|lia].
      replace (Zpos (digits2_pos p)) with 53 in * by lia.
      change (2 ^ (53 - 1)) with 4503599627370496 in Hlo. lia.
    - apply binary_round_aux_nonzero; [|lia].
      assert (2 ^ 52 <= 2 ^ (Zpos (digits2_pos p) - 1)) by (apply Z.pow_le_mono_r; lia).
      change (2 ^ 52) with 4503599627370496 in *. lia.
    - apply binary_round_aux_nonzero; [|lia].
      rewrite pos_iter_xO.
      assert (HP : 0 < 2 ^ Zpos n) by (apply Z.pow_pos_nonneg; lia).
      assert (Heq : 2 ^ (Zpos (digits2_pos p) - 1) * 2 ^ Zpos n = 4503599627370496).
      { rewrite <- Z.pow_add_r by lia.
        now replace (Zpos (digits2_pos p) - 1 + Zpos n) with 52 by lia. }
      rewrite <- Heq. apply Z.mul_le_mono_nonneg_r; lia. }
  destruct (let '(mz, ez) := shl_align p 0 (fexp prec emax (Zpos (digits2_pos p) + 0)) in
            binary_round_aux prec emax false (Zpos mz) ez loc_Exact);
    try discriminate; intros [= <-]; exact Hnz.
Qed.

(** With a total that is an int of at least 1 the division does not
    raise [ZeroDivisionError]. *)
Lemma truediv_by_positive : forall v z,
  1 <= z -> py_truediv v (PInt z) <> Raise ZeroDivisionError.
Proof.
  intros v z Hz. unfold py_truediv. cbn [as_number].
  destruct (as_number v) as [[x|f]|]; [| |discriminate].
  - destruct (Z.eqb_spec z 0) as [->|_]; [lia|].
    now destruct (SFdiv prec emax (Z2SF x) (Z2SF z)).
  - cbn [number_to_float].
    destruct z as [|p|p]; try lia.
    destruct (int_to_float (Zpos p)) as [fy|e] eqn:Hconv.
    + now rewrite (int_to_float_positive p fy Hconv).
    + unfold int_to_float in Hconv.
      destruct (binary_normalize prec emax (Zpos p) 0 false);
        try discriminate; injection Hconv as <-; discriminate.
Qed.

Lemma record_results_total : forall responses e,
  forallb total_at_least_1 responses = true ->
  at_least_1 (total_scanners e) = true ->
  at_least_1 (total_scanners (record_results responses e)) = true.
Proof.
  unfold record_results.
  induction responses as [|response responses IH]; intros e Hall He; cbn [fold_left].
  - exact He.
  - cbn [forallb] in Hall. apply andb_prop in Hall. destruct Hall as [Hr Hall].
    apply IH; [exact Hall|]. rewrite avr_total_scanners.
    unfold total_at_least_1 in Hr.
    now destruct (assigned_total response).
Qed.

(** C3 (amended). The total of a successful lookup is stored as the
    response gives it.  For every sequence of [add_virustotal_result]
    calls in which each successful lookup carries an int total of at
    least 1, [total_scanners] is an int of at least 1 afterwards and
    [is_malicious] does not raise [ZeroDivisionError]; in particular it
    does not before any call, when [total_scanners] is the default 1 and
    the verdict is [False]. *)
Theorem total_scanners_at_least_1 :
  forall (file : simpleFile) (responses : list pyval),
    forallb total_at_least_1 responses = true ->
    let e := record_results responses (observedEntity_init file) in
    at_least_1 (count_total_scanners e) = true /\
    verdict e <> Raise ZeroDivisionError /\
    count_total_scanners (observedEntity_init file) = PInt 1 /\
    verdict (observedEntity_init file) = Ok false.
Proof.
  intros file responses Hall e.
  assert (Htotal : at_least_1 (total_scanners e) = true).
  { apply record_results_total; [exact Hall | reflexivity]. }
  split; [exact Htotal|]. split; [|split; reflexivity].
  destruct (total_scanners e) as [| | z | | | |] eqn:Ht; try discriminate.
  cbn [at_least_1] in Htotal. apply Z.leb_le in Htotal.
  pose proof (truediv_by_positive (positives e) z Htotal) as Hdiv.
  rewrite <- Ht in Hdiv.
  destruct (py_truediv (positives e) (total_scanners e)) as [ratio|ex] eqn:Hq.
  - now rewrite (verdict_of_counts e ratio Hq).
  - rewrite (verdict_raises e ex Hq). congruence.
Qed.

Lemma total_scanners_at_least_1_witness :
  let e := record_results
             [unknown_report; found_report (PInt 60) (PInt 6); rate_limit_report]
             (observedEntity_init file_A) in
  at_least_1 (count_total_scanners e) = true /\
  verdict e <> Raise ZeroDivisionError.
Proof.
  destruct (total_scanners_at_least_1 file_A
              [unknown_report; found_report (PInt 60) (PInt 6); rate_limit_report]
              eq_refl) as (Ht & Hv & _).
  exact (conj Ht Hv).
Defined.

(** ** The quotient of two ints against the threshold [0.1] *)

(** Where the remainder [r] of a division by [t] lies. *)
Lemma new_location_spec : forall t r,
  0 < t -> 0 <= r < t ->
  new_location t r = if r =? 0 then loc_Exact else loc_Inexact (2 * r ?= t).
Proof.
  intros t r Ht Hr. unfold new_location, new_location_even, new_location_odd.
  destruct (Z.even t) eqn:Hpar; [reflexivity|].
  destruct (r =? 0); [reflexivity|]. f_equal.
  assert (Hodd : Z.odd t = true) by (rewrite <- Z.negb_even, Hpar; reflexivity).
  apply Z.odd_spec in Hodd. destruct Hodd as [k Hk].
  destruct (Z.compare_spec (2 * r + 1) t); destruct (Z.compare_spec (2 * r) t);
    try reflexivity; lia.
Qed.

(** Rounding a mantissa of exactly 53 digits. *)
Lemma binary_round_aux_53 : forall sx m e l,
  4503599627370496 <= m < 9007199254740992 -> -1074 <= e <= 970 ->
  binary_round_aux prec emax sx m e l =
  if round_nearest_even m l <? 9007199254740992
  then S754_finite sx (Z.to_pos (round_nearest_even m l)) e
  else S754_finite sx 4503599627370496 (e + 1).
Proof.
  intros sx m e l Hm He. unfold binary_round_aux.
  assert (Hfirst : shr_fexp prec emax m e l = (shr_record_of_loc m l, e)).
  { unfold shr_fexp, fexp, emin, prec, emax.
    rewrite (Zdigits2_unique m 53) by (cbn; lia).
    replace (Z.max (53 + e - 53) (3 - 1024 - 53) - e) with 0 by lia.
    reflexivity. }
  rewrite Hfirst, shr_m_of_loc, loc_of_shr_record_of_loc.
  pose proof (round_nearest_even_bounds m l) as Hr.
  rewrite shr_fexp_rounded by lia.
  destruct (round_nearest_even m l <? 9007199254740992); cbn [shr_m].
  - destruct (round_nearest_even m l) as [|m1|m1]; try lia.
    unfold emax, prec. destruct (Z.leb_spec e (1024 - 53)); [reflexivity | lia].
  - unfold emax, prec. destruct (Z.leb_spec (e + 1) (1024 - 53)); [reflexivity | lia].
Qed.

(** A mantissa of 54 digits is first shifted by one digit. *)
Lemma binary_round_aux_54 : forall sx m e l,
  9007199254740992 <= m < 18014398509481984 -> -1074 <= e ->
  binary_round_aux prec emax sx m e l =
  binary_round_aux prec emax sx (m / 2) (e + 1)
    (loc_of_shr_record (shr_1 (shr_record_of_loc m l))).
Proof.
  intros sx m e l Hm He. unfold binary_round_aux.
  assert (Hl : shr_fexp prec emax m e l = (shr_1 (shr_record_of_loc m l), e + 1)).
  { unfold shr_fexp, fexp, emin, prec, emax.
    rewrite (Zdigits2_unique m 54) by (cbn; lia).
    replace (Z.max (54 + e - 53) (3 - 1024 - 53) - e) with 1 by lia.
    reflexivity. }
  assert (Hhalf : 4503599627370496 <= m / 2 < 9007199254740992).
  { Z.to_euclidean_division_equations. lia. }
  assert (Hr : shr_fexp prec emax (m / 2) (e + 1)
                 (loc_of_shr_record (shr_1 (shr_record_of_loc m l))) =
               (shr_record_of_loc (m / 2)
                  (loc_of_shr_record (shr_1 (shr_record_of_loc m l))), e + 1)).
  { unfold shr_fexp, fexp, emin, prec, emax.
    rewrite (Zdigits2_unique (m / 2) 53) by (cbn; lia).
    replace (Z.max (53 + (e + 1) - 53) (3 - 1024 - 53) - (e + 1)) with 0 by lia.
    reflexivity. }
  rewrite Hl, Hr, shr_m_of_loc, loc_of_shr_record_of_loc.
  rewrite shr_m_shr_1 by (rewrite shr_m_of_loc; lia).
  now rewrite shr_m_of_loc.
Qed.

(** The location after the one-digit shift, by the parity of the
    mantissa. *)
Lemma loc_after_shr_1 : forall m l,
  0 < m ->
  loc_of_shr_record (shr_1 (shr_record_of_loc m l)) =
  match Z.even m, l with
  | true, loc_Exact => loc_Exact
  | true, loc_Inexact _ => loc_Inexact Lt
  | false, loc_Exact => loc_Inexact Eq
  | false, loc_Inexact _ => loc_Inexact Gt
  end.
Proof.
  intros [|[p|p|]|p] [|[]] Hm; try lia; reflexivity.
Qed.

(** [x >= 0.1] for a positive finite float. *)
Lemma float_ge_tenth : forall m e,
  float_ge (S754_finite false m e) float_0_1 =
  (-56 <? e) || ((e =? -56) && (7205759403792794 <=? Zpos m)).
Proof.
  intros m e. unfold float_ge, float_0_1, SFleb, SFcompare.
  destruct (Z.compare_spec (-56) e) as [Heq|Hlt|Hgt].
  - subst e. rewrite Z.ltb_irrefl, Z.eqb_refl. cbn [orb andb].
    change (Pos.compare_cont Eq 7205759403792794 m)
      with (Zpos 7205759403792794 ?= Zpos m).
    destruct (Z.leb_spec 7205759403792794 (Zpos m)) as [Hle|Hgt];
      destruct (Z.compare_spec 7205759403792794 (Zpos m)); try reflexivity; lia.
  - destruct (Z.ltb_spec (-56) e); [reflexivity | lia].
  - destruct (Z.ltb_spec (-56) e); [lia|].
    destruct (Z.eqb_spec e (-56)); [lia | reflexivity].
Qed.

(** The threshold, on a quotient cut at the digit of weight [2^-56]:
    [p / t] is [q + R2 / (2 t)] in units of [2^-56], and the rounded
    mantissa reaches that of [0.1] exactly when [p / t >= 1/10]. *)
Lemma tenth_threshold : forall p t q R2,
  0 < t < 72057594037927936 ->
  0 <= R2 < 2 * t ->
  p * 144115188075855872 = 2 * (q * t) + R2 ->
  (7205759403792794 <=?
     round_nearest_even q
       (if R2 =? 0 then loc_Exact else loc_Inexact (R2 ?= t))) =
  (t <=? 10 * p).
Proof.
  intros p t q R2 Ht HR Hdiv.
  destruct (Z.le_gt_cases 7205759403792794 q) as [Hq|Hq].
  - pose proof (round_nearest_even_bounds q
      (if R2 =? 0 then loc_Exact else loc_Inexact (R2 ?= t))) as Hr.
    assert (7205759403792794 * t <= q * t) by (apply Z.mul_le_mono_nonneg_r; lia).
    destruct (Z.leb_spec 7205759403792794 (round_nearest_even q
      (if R2 =? 0 then loc_Exact else loc_Inexact (R2 ?= t)))); [|lia].
    destruct (Z.leb_spec t (10 * p)); [reflexivity | lia].
  - destruct (Z.eq_dec q 7205759403792793) as [->|Hne].
    + destruct (Z.eqb_spec R2 0) as [->|HR0]; cbn [round_nearest_even].
      * destruct (Z.leb_spec t (10 * p)); [exfalso; lia | reflexivity].
      * destruct (Z.compare_spec R2 t); cbn [round_nearest_even Z.even];
          destruct (Z.leb_spec t (10 * p)); try reflexivity; exfalso; lia.
    + pose proof (round_nearest_even_bounds q
        (if R2 =? 0 then loc_Exact else loc_Inexact (R2 ?= t))) as Hr.
      assert (q * t <= 7205759403792792 * t) by (apply Z.mul_le_mono_nonneg_r; lia).
      destruct (Z.leb_spec 7205759403792794 (round_nearest_even q
        (if R2 =? 0 then loc_Exact else loc_Inexact (R2 ?= t)))); [lia|].
      destruct (Z.leb_spec t (10 * p)); [lia | reflexivity].
Qed.

Lemma digits_below_2_53 : forall p,
  Zpos p < 9007199254740992 -> 1 <= Zpos (digits2_pos p) <= 53.
Proof.
  intros p Hp. pose proof (Zdigits2_bounds p) as [Hlo _].
  split; [lia|].
  destruct (Z.le_gt_cases (Zpos (digits2_pos p)) 53) as [Hle|Hgt]; [exact Hle|].
  assert (2 ^ 53 <= 2 ^ (Zpos (digits2_pos p) - 1)) by (apply Z.pow_le_mono_r; lia).
  change (2 ^ 53) with 9007199254740992 in *. lia.
Qed.

(** The integer quotient [SFdiv] computes for two ints below [2^53]:
    the dividend is scaled by [2^s] so that the quotient has 53 or 54
    digits. *)
Lemma SFdiv_core_ints : forall p t,
  Zpos p < 9007199254740992 -> Zpos t < 9007199254740992 ->
  let s := 53 - Zpos (digits2_pos p) + Zpos (digits2_pos t) in
  let q := (Zpos p * 2 ^ s) / Zpos t in
  let r := (Zpos p * 2 ^ s) mod Zpos t in
  SFdiv_core_binary prec emax (Zpos p) 0 (Zpos t) 0 = (q, - s, new_location (Zpos t) r) /\
  1 <= s <= 105 /\
  4503599627370496 <= q < 18014398509481984.
Proof.
  intros p t Hp Ht s q r.
  pose proof (digits_below_2_53 p Hp) as Hd1.
  pose proof (digits_below_2_53 t Ht) as Hd2.
  pose proof (Zdigits2_bounds p) as [Hplo Hphi].
  pose proof (Zdigits2_bounds t) as [Htlo Hthi].
  assert (Hs : 1 <= s <= 105) by (subst s; lia).
  split; [|split; [exact Hs|]].
  - unfold SFdiv_core_binary, fexp, emin, prec, emax. cbn [Zdigits2].
    replace (Z.min
               (Z.max (Zpos (digits2_pos p) + 0 - (Zpos (digits2_pos t) + 0) - 53)
                  (3 - 1024 - 53)) (0 - 0)) with (- s) by (subst s; lia).
    replace (0 - 0 - - s) with s by lia.
    destruct s as [|s'|s'] eqn:Es; try lia.
    rewrite Z.shiftl_mul_pow2 by lia.
    subst q r. unfold Z.div, Z.modulo.
    now destruct (Z.div_eucl (Zpos p * 2 ^ Zpos s') (Zpos t)).
  - set (A := 2 ^ (Zpos (digits2_pos p) - 1)) in *.
    set (B := 2 ^ (Zpos (digits2_pos t) - 1)) in *.
    assert (HA : 2 ^ Zpos (digits2_pos p) = 2 * A).
    { subst A. rewrite <- Z.pow_succ_r by lia. f_equal. lia. }
    assert (HB : 2 ^ Zpos (digits2_pos t) = 2 * B).
    { subst B. rewrite <- Z.pow_succ_r by lia. f_equal. lia. }
    assert (HS : 0 < 2 ^ s) by (apply Z.pow_pos_nonneg; lia).
    assert (HAS : A * 2 ^ s = 9007199254740992 * B).
    { subst A B. change 9007199254740992 with (2 ^ 53).
      rewrite <- !Z.pow_add_r by lia. f_equal. subst s. lia. }
    assert (Hlo : A * 2 ^ s <= Zpos p * 2 ^ s) by (apply Z.mul_le_mono_nonneg_r; lia).
    assert (Hhi : Zpos p * 2 ^ s < 2 * A * 2 ^ s) by (apply Z.mul_lt_mono_pos_r; lia).
    subst q. split.
    + apply Z.div_le_lower_bound; lia.
    + apply Z.div_lt_upper_bound; lia.
Qed.


Ltac by_cases_on_tests :=
  repeat match goal with
    | |- context [?a <? ?b] => destruct (Z.ltb_spec a b)
    | |- context [?a =? ?b] => destruct (Z.eqb_spec a b)
    | |- context [?a <=? ?b] => destruct (Z.leb_spec a b)
    end;
  cbn [orb andb]; try reflexivity; exfalso; lia.

Lemma scale_le : forall P s k, 0 <= P -> 0 <= s <= k -> P * 2 ^ s <= P * 2 ^ k.
Proof.
  intros P s k HP Hs. apply Z.mul_le_mono_nonneg_l; [exact HP|].
  apply Z.pow_le_mono_r; lia.
Qed.

(** The quotient of two positive ints below [2^53] is a finite float,
    and it is at least [0.1] exactly when ten times the dividend reaches
    the divisor. *)
Lemma int_quotient_ge_tenth : forall p t,
  Zpos p < 9007199254740992 -> Zpos t < 9007199254740992 ->
  exists m e,
    SFdiv prec emax (Z2SF (Zpos p)) (Z2SF (Zpos t)) = S754_finite false m e /\
    float_ge (S754_finite false m e) float_0_1 = (Zpos t <=? 10 * Zpos p).
Proof.
  intros p t Hp Ht. cbn [Z2SF SFdiv xorb].
  pose proof (SFdiv_core_ints p t Hp Ht) as Hcore. cbv zeta in Hcore.
  set (s := 53 - Zpos (digits2_pos p) + Zpos (digits2_pos t)) in *.
  set (N := Zpos p * 2 ^ s) in *.
  destruct Hcore as (Hcore & Hs & Hq). rewrite Hcore.
  pose proof (Z.div_mod N (Zpos t) ltac:(lia)) as Hdm.
  pose proof (Z.mod_pos_bound N (Zpos t) ltac:(lia)) as Hr.
  set (q := N / Zpos t) in *. set (r := N mod Zpos t) in *.
  rewrite new_location_spec by lia.
  set (l := if r =? 0 then loc_Exact else loc_Inexact (2 * r ?= Zpos t)).
  assert (HX52 : 4503599627370496 * Zpos t <= q * Zpos t)
    by (apply Z.mul_le_mono_nonneg_r; lia).
  assert (HX54 : q * Zpos t <= 18014398509481983 * Zpos t)
    by (apply Z.mul_le_mono_nonneg_r; lia).
  assert (Hscale :
    (s <= 55 /\ N <= Zpos p * 36028797018963968) \/
    (s = 56 /\ N = Zpos p * 72057594037927936) \/
    (s = 57 /\ N = Zpos p * 144115188075855872) \/
    (58 <= s /\ Zpos p * 288230376151711744 <= N)).
  { destruct (Z.le_gt_cases s 55) as [H55|H55].
    - left. split; [exact H55|]. apply (scale_le (Zpos p) s 55); lia.
    - destruct (Z.eq_dec s 56) as [H56|H56].
      + right. left. split; [exact H56|]. subst N. now rewrite H56.
      + destruct (Z.eq_dec s 57) as [H57|H57].
        * right. right. left. split; [exact H57|]. subst N. now rewrite H57.
        * right. right. right. split; [lia|].
          apply (scale_le (Zpos p) 58 s); lia. }
  destruct (Z.ltb_spec q 9007199254740992) as [Hq53|Hq53].
  - (* a quotient of 53 digits *)
    assert (HX53 : q * Zpos t <= 9007199254740991 * Zpos t)
      by (apply Z.mul_le_mono_nonneg_r; lia).
    rewrite binary_round_aux_53 by lia.
    pose proof (round_nearest_even_bounds q l) as Hrne.
    assert (Hth : s = 56 ->
      (7205759403792794 <=? round_nearest_even q l) = (Zpos t <=? 10 * Zpos p)).
    { intros H56. subst l.
      rewrite <- (tenth_threshold (Zpos p) (Zpos t) q (2 * r)) by lia.
      destruct (Z.eqb_spec r 0), (Z.eqb_spec (2 * r) 0); first [reflexivity | lia]. }
    destruct (Z.ltb_spec (round_nearest_even q l) 9007199254740992) as [Hnb|Hb];
      eexists _, _; (split; [reflexivity|]); rewrite float_ge_tenth.
    + rewrite Z2Pos.id by lia.
      destruct Hscale as [[Hs' HN]|[[Hs' HN]|[[Hs' HN]|[Hs' HN]]]].
      * by_cases_on_tests.
      * rewrite <- (Hth Hs'). by_cases_on_tests.
      * by_cases_on_tests.
      * by_cases_on_tests.
    + destruct Hscale as [[Hs' HN]|[[Hs' HN]|[[Hs' HN]|[Hs' HN]]]].
      * by_cases_on_tests.
      * rewrite <- (Hth Hs'). by_cases_on_tests.
      * by_cases_on_tests.
      * by_cases_on_tests.
  - (* a quotient of 54 digits *)
    assert (HX53 : 9007199254740992 * Zpos t <= q * Zpos t)
      by (apply Z.mul_le_mono_nonneg_r; lia).
    rewrite binary_round_aux_54, loc_after_shr_1 by lia.
    set (l' := match Z.even q, l with
               | true, loc_Exact => loc_Exact
               | true, loc_Inexact _ => loc_Inexact Lt
               | false, loc_Exact => loc_Inexact Eq
               | false, loc_Inexact _ => loc_Inexact Gt
               end).
    assert (Hhalf : 4503599627370496 <= q / 2 < 9007199254740992).
    { Z.to_euclidean_division_equations. lia. }
    rewrite binary_round_aux_53 by lia.
    pose proof (round_nearest_even_bounds (q / 2) l') as Hrne.
    assert (Hth : s = 57 ->
      (7205759403792794 <=? round_nearest_even (q / 2) l') = (Zpos t <=? 10 * Zpos p)).
    { intros H57. subst l' l.
      destruct (Z.even q) eqn:Hev.
      - apply Z.even_spec in Hev. destruct Hev as [k Hk].
        assert (Hk2 : q / 2 = k) by (Z.to_euclidean_division_equations; lia).
        rewrite Hk2.
        rewrite <- (tenth_threshold (Zpos p) (Zpos t) k r) by lia.
        destruct (Z.eqb_spec r 0); [reflexivity|].
        destruct (Z.compare_spec r (Zpos t)); first [reflexivity | lia].
      - assert (Hodd : Z.odd q = true) by (rewrite <- Z.negb_even, Hev; reflexivity).
        apply Z.odd_spec in Hodd. destruct Hodd as [k Hk].
        assert (Hk2 : q / 2 = k) by (Z.to_euclidean_division_equations; lia).
        rewrite Hk2.
        rewrite <- (tenth_threshold (Zpos p) (Zpos t) k (Zpos t + r)) by lia.
        destruct (Z.eqb_spec (Zpos t + r) 0); [lia|].
        destruct (Z.eqb_spec r 0) as [Hr0|Hr0];
          destruct (Z.compare_spec (Zpos t + r) (Zpos t)); first [reflexivity | lia]. }
    destruct (Z.ltb_spec (round_nearest_even (q / 2) l') 9007199254740992) as [Hnb|Hb];
      eexists _, _; (split; [reflexivity|]); rewrite float_ge_tenth.
    + rewrite Z2Pos.id by lia.
      destruct Hscale as [[Hs' HN]|[[Hs' HN]|[[Hs' HN]|[Hs' HN]]]].
      * by_cases_on_tests.
      * by_cases_on_tests.
      * rewrite <- (Hth Hs'). by_cases_on_tests.
      * by_cases_on_tests.
    + destruct Hscale as [[Hs' HN]|[[Hs' HN]|[[Hs' HN]|[Hs' HN]]]].
      * by_cases_on_tests.
      * by_cases_on_tests.
      * rewrite <- (Hth Hs'). by_cases_on_tests.
      * by_cases_on_tests.
Qed.

(** ** The verdict *)

Lemma ratio_at_least_tenth_iff : forall p t,
  0 < t -> ratio_at_least_tenth p t <-> t <= 10 * p.
Proof.
  intros p [|t|t] Ht; try lia.
  unfold ratio_at_least_tenth, Qle, Qdiv, Qmult, Qinv, inject_Z. cbn [Qnum Qden].
  rewrite Pos2Z.inj_mul. lia.
Qed.

(** With counts beyond [2^56] the quotient can round up to the float
    [0.1] although the exact ratio is below one tenth. *)
Lemma rounded_ratio_reaches_threshold :
  verdict huge_counts = Ok true /\
  ~ ratio_at_least_tenth 99999999999999999 1000000000000000000 /\
  ~ (verdict huge_counts = Ok true <->
     ratio_at_least_tenth 99999999999999999 1000000000000000000).
Proof.
  assert (Hbelow : ~ ratio_at_least_tenth 99999999999999999 1000000000000000000).
  { rewrite ratio_at_least_tenth_iff by lia. lia. }
  assert (Htrue : verdict huge_counts = Ok true) by (vm_compute; reflexivity).
  split; [exact Htrue|]. split; [exact Hbelow|].
  intros [Himp _]. exact (Hbelow (Himp Htrue)).
Qed.

(** C2 (amended). The quotient is a binary64 float and is compared with
    the float [0.1].  For int counts below [2^53] with a positive total,
    [is_malicious] returns, and it returns [True] if and only if the
    exact ratio [positives / total_scanners] is at least [0.10]; when the
    ratio is exactly [0.10] it returns [True]. *)
Theorem malicious_iff_tenth :
  forall (e : observedEntity) (p t : Z),
    count_alerting_scanners e = PInt p ->
    count_total_scanners e = PInt t ->
    0 <= p < 2 ^ 53 -> 0 < t < 2 ^ 53 ->
    exists b : bool,
      verdict e = Ok b /\
      (b = true <-> ratio_at_least_tenth p t) /\
      (10 * p = t -> b = true).
Proof.
  intros e p t Hp Ht Hpr Htr.
  change (2 ^ 53) with 9007199254740992 in *.
  unfold count_alerting_scanners, count_total_scanners in *.
  assert (Hdiv : exists ratio,
    py_truediv (positives e) (total_scanners e) = Ok ratio /\
    float_ge ratio float_0_1 = (t <=? 10 * p)).
  { rewrite Hp, Ht. unfold py_truediv. cbn [as_number].
    destruct t as [|t|t]; try lia. cbn [Z.eqb].
    destruct p as [|p|p]; try lia.
    - exists (S754_zero false). split; reflexivity.
    - destruct (int_quotient_ge_tenth p t) as (m & ex & Hq & Hge); try lia.
      rewrite Hq. exists (S754_finite false m ex). split; [reflexivity | exact Hge]. }
  destruct Hdiv as (ratio & Hq & Hge).
  exists (float_ge ratio float_0_1).
  split; [now apply verdict_of_counts|].
  rewrite Hge, ratio_at_least_tenth_iff by lia.
  split; [apply Z.leb_le|]. intros Heq. apply Z.leb_le. lia.
Qed.

Lemma malicious_iff_tenth_witness :
  exists b : bool,
    verdict six_of_sixty = Ok b /\
    (b = true <-> ratio_at_least_tenth 6 60) /\
    (10 * 6 = 60 -> b = true).
Proof.
  apply (malicious_iff_tenth six_of_sixty 6 60).
  - reflexivity.
  - reflexivity.
  - split; [discriminate | reflexivity].
  - split; reflexivity.
Defined.

(** * Further properties *)

(** ** Hashing a file *)

(** X1. [calculate_hash] feeds the hasher the whole file: the blocks read
    are, in order, the content of the file, each of them non-empty and of
    at most 4096 bytes. *)
Theorem blocks_cover_file : forall data : list Byte.byte,
  let blocks := read_blocks block_size (List.length data) data in
  List.concat blocks = data /\
  Forall (fun block => (0 < List.length block <= 4096)%nat) blocks.
Proof.
  intros data blocks. split.
  - apply read_blocks_complete; [unfold block_size; lia | lia].
  - apply (read_blocks_sizes block_size).
Qed.

Lemma fold_update_concat : forall (H : hashlib),
  hasher_streams H ->
  forall (blocks : list (list Byte.byte)) (h : hasher H),
    fold_left (update H) blocks h = update H h (List.concat blocks).
Proof.
  intros H [Happ Hnil]. induction blocks as [|block blocks IH]; intros h; cbn.
  - now rewrite Hnil.
  - now rewrite IH, Happ.
Qed.

(** X2. For an incremental hasher the digest [calculate_hash] computes
    block by block is the digest of the whole content fed at once: the
    4096-byte blocks leave no trace in the hash. *)
Theorem chunked_digest_is_whole_digest : forall (H : hashlib),
  hasher_streams H ->
  forall data : list Byte.byte,
    hash_bytes H data = hexdigest H (update H (sha256 H) data).
Proof.
  intros H Hstream data. unfold hash_bytes.
  rewrite (fold_update_concat H Hstream).
  rewrite read_blocks_complete; [reflexivity | unfold block_size; lia | lia].
Qed.

Lemma chunked_digest_is_whole_digest_witness :
  hash_bytes plain_hashlib (bytes_of "same") =
  hexdigest plain_hashlib (update plain_hashlib (sha256 plain_hashlib) (bytes_of "same")).
Proof.
  apply (chunked_digest_is_whole_digest plain_hashlib).
  split.
  - intros h a b. cbn. now rewrite app_assoc.
  - intros h. cbn. now rewrite app_nil_r.
Defined.

(** ** The registration loop *)

Section RegistrationLoop.

Variable H : hashlib.
Variable fs : string -> option (list Byte.byte).
Variable os_path_isfile : string -> bool.

Lemma register_files_app : forall pre post self,
  register_files H fs os_path_isfile (pre ++ post) self =
  match register_files H fs os_path_isfile pre self with
  | (self', Ok _) => register_files H fs os_path_isfile post self'
  | (self', Raise e) => (self', Raise e)
  end.
Proof.
  induction pre as [|file pre IH]; intros post self.
  - reflexivity.
  - rewrite <- app_comm_cons, !register_files_cons.
    destruct (os_path_isfile file); [|apply IH].
    destruct (add_file H fs file self) as [self' [[]|e]]; [apply IH | reflexivity].
Qed.

(** X3. The registration loop stops at the first registered file that
    cannot be read: it raises the error of that file, the files before it
    are registered and the files after it are not looked at. *)
Theorem register_files_stops_at_unreadable :
  forall (pre post : list string) (file : string) (self : entityHandler),
    readable fs (registered os_path_isfile pre) ->
    os_path_isfile file = true ->
    fs file = None ->
    register_files H fs os_path_isfile (pre ++ file :: post) self =
    (state_after (register_files H fs os_path_isfile pre) self, Raise (OSError file)).
Proof.
  intros pre post file self Hread Hisfile Hfs.
  rewrite register_files_app.
  pose proof (register_files_ok H fs os_path_isfile pre self Hread) as Hok.
  unfold outcome, state_after in *.
  destruct (register_files H fs os_path_isfile pre self) as [self' r].
  cbn [fst snd] in *. subst r.
  rewrite register_files_cons, Hisfile.
  now rewrite (add_file_unreadable H fs file self' Hfs).
Qed.

(** X4. What [os.path.isfile] rejects is skipped: registering the
    enumerated paths is registering the regular files among them. *)
Theorem register_files_skips_non_files :
  forall (paths : list string) (self : entityHandler),
    register_files H fs os_path_isfile paths self =
    register_files H fs (fun _ => true) (registered os_path_isfile paths) self.
Proof.
  induction paths as [|file paths IH]; intros self.
  - reflexivity.
  - rewrite register_files_cons. unfold registered in *. cbn [filter].
    destruct (os_path_isfile file).
    + rewrite register_files_cons.
      destruct (add_file H fs file self) as [self' [[]|e]]; [apply IH | reflexivity].
    + apply IH.
Qed.

End RegistrationLoop.

Lemma register_files_stops_at_unreadable_witness :
  register_files plain_hashlib fs3 (fun _ => true) paths_with_missing entityHandler_init =
  (state_after (register_files plain_hashlib fs3 (fun _ => true) ["dir/A"]) entityHandler_init,
   Raise (OSError "missing")).
Proof.
  apply (register_files_stops_at_unreadable plain_hashlib fs3 (fun _ => true)
           ["dir/A"] ["dir/C"] "missing" entityHandler_init).
  - repeat constructor. discriminate.
  - reflexivity.
  - reflexivity.
Defined.

(** ** What the registry lists *)

Section Listing.

Variable H : hashlib.
Variable fs : string -> option (list Byte.byte).
Variable os_path_isfile : string -> bool.

Lemma has_digest_readable : forall key file data,
  fs file = Some data ->
  has_digest H fs key file = String.eqb (hash_bytes H data) key.
Proof.
  intros key file data Hfs. unfold has_digest, calculate_hash. now rewrite Hfs.
Qed.

(** One registration appends the file name under its digest and changes
    nothing under any other key. *)
Lemma add_file_file_names_under : forall file data self key,
  fs file = Some data ->
  file_names_under (state_after (add_file H fs file) self) key =
  file_names_under self key ++ (if has_digest H fs key file then [file] else []).
Proof.
  intros file data self key Hfs. unfold state_after, file_names_under.
  rewrite (has_digest_readable key file data Hfs).
  destruct (dict_get (hash_dict self) (hash_bytes H data)) as [existing|] eqn:Hget.
  - rewrite (add_file_known H fs _ _ _ _ Hfs Hget). cbn [fst hash_dict].
    destruct (String.eqb_spec (hash_bytes H data) key) as [<-|Hne].
    + now rewrite dict_get_set_same, Hget.
    + rewrite dict_get_set_other by exact Hne.
      now rewrite app_nil_r.
  - rewrite (add_file_new H fs _ _ _ Hfs Hget). cbn [fst hash_dict].
    rewrite <- (dict_set_absent _ _ _ Hget).
    destruct (String.eqb_spec (hash_bytes H data) key) as [<-|Hne].
    + now rewrite dict_get_set_same, Hget.
    + rewrite dict_get_set_other by exact Hne.
      now rewrite app_nil_r.
Qed.

Lemma register_files_file_names_under : forall paths self key,
  readable fs (registered os_path_isfile paths) ->
  file_names_under (state_after (register_files H fs os_path_isfile paths) self) key =
  file_names_under self key ++
  files_with_digest H fs key (registered os_path_isfile paths).
Proof.
  induction paths as [|file paths IH]; intros self key Hread; unfold state_after in *.
  - cbn. now rewrite app_nil_r.
  - rewrite register_files_cons. unfold registered, files_with_digest in *.
    cbn [filter] in *.
    destruct (os_path_isfile file); [|now apply IH].
    inversion Hread as [|? ? Hfile Hrest]; subst.
    destruct (fs file) as [data|] eqn:Hfs; [|contradiction].
    pose proof (add_file_file_names_under file data self key Hfs) as Hstep.
    unfold state_after in Hstep.
    assert (Hok : snd (add_file H fs file self) = Ok tt).
    { destruct (dict_get (hash_dict self) (hash_bytes H data)) as [existing|] eqn:Hget.
      - now rewrite (add_file_known H fs _ _ _ _ Hfs Hget).
      - now rewrite (add_file_new H fs _ _ _ Hfs Hget). }
    destruct (add_file H fs file self) as [self' r]. cbn [fst snd] in *. subst r.
    rewrite (IH self' key Hrest), Hstep. cbn [filter].
    destruct (has_digest H fs key file); cbn; now rewrite <- app_assoc.
Qed.

(** X5. After the registration of readable files, the entity under a
    digest lists exactly the registered files whose content has this
    digest, in the order of the enumeration; under a digest no file has,
    the registry lists nothing. *)
Theorem registry_groups_by_digest :
  forall (paths : list string) (key : string),
    readable fs (registered os_path_isfile paths) ->
    let self := state_after (register_files H fs os_path_isfile paths) entityHandler_init in
    file_names_under self key =
      files_with_digest H fs key (registered os_path_isfile paths) /\
    (In key (keys (hash_dict self)) <->
     files_with_digest H fs key (registered os_path_isfile paths) <> []).
Proof.
  intros paths key Hread self.
  assert (Hnames : file_names_under self key =
    files_with_digest H fs key (registered os_path_isfile paths)).
  { subst self. now rewrite register_files_file_names_under. }
  split; [exact Hnames|]. clear Hnames. subst self.
  rewrite (register_files_keys H fs os_path_isfile paths entityHandler_init key Hread).
  unfold digests, contents, files_with_digest. cbn [hash_dict keys map In].
  induction (registered os_path_isfile paths) as [|file files IH].
  - cbn. tauto.
  - inversion Hread as [|? ? Hfile Hrest]; subst.
    destruct (fs file) as [data|] eqn:Hfs; [|contradiction].
    cbn [flat_map filter map app In]. rewrite Hfs. cbn [app map In].
    rewrite (has_digest_readable key file data Hfs).
    destruct (String.eqb_spec (hash_bytes H data) key) as [Heq|Hne].
    + split; [discriminate | intros _; right; now left].
    + specialize (IH Hrest). split.
      * intros [[]|[Heq|Hin]]; [contradiction | apply IH; now right].
      * intros Hfiles. right. right.
        destruct (proj2 IH Hfiles) as [[]|Hin]. exact Hin.
Qed.

End Listing.

Lemma registry_groups_by_digest_witness :
  let self := state_after (register_files plain_hashlib fs3 (fun _ => true)
                             ["dir/A"; "dir/C"; "dir/sub/B"]) entityHandler_init in
  file_names_under self "same" = ["dir/A"; "dir/sub/B"].
Proof.
  refine (proj1 (registry_groups_by_digest plain_hashlib fs3 (fun _ => true)
                   ["dir/A"; "dir/C"; "dir/sub/B"] "same" _)).
  repeat constructor; discriminate.
Defined.

(** ** No file is lost, no entity is empty *)

Section Counting.

Variable H : hashlib.
Variable fs : string -> option (list Byte.byte).
Variable os_path_isfile : string -> bool.

Lemma all_file_names_app : forall d1 d2,
  all_file_names {| hash_dict := d1 ++ d2 |} =
  all_file_names {| hash_dict := d1 |} ++ all_file_names {| hash_dict := d2 |}.
Proof.
  intros d1 d2. unfold all_file_names. cbn [hash_dict]. apply flat_map_app.
Qed.

(** One registration adds one file name and leaves no entity empty. *)
Lemma add_file_counts : forall file data self,
  fs file = Some data ->
  every_entity_lists_a_file self ->
  List.length (all_file_names (state_after (add_file H fs file) self)) =
    S (List.length (all_file_names self)) /\
  every_entity_lists_a_file (state_after (add_file H fs file) self).
Proof.
  intros file data [d] Hfs Hne. unfold state_after, every_entity_lists_a_file in *.
  cbn [hash_dict] in *.
  destruct (dict_get d (hash_bytes H data)) as [existing|] eqn:Hget.
  - rewrite (add_file_known H fs file data existing {| hash_dict := d |} Hfs Hget).
    cbn [fst hash_dict].
    destruct (dict_set_present d _ _ (add_file_name file existing) Hget)
      as (d1 & d2 & E & -> & _).
    subst d. apply Forall_app in Hne. destruct Hne as [Hne1 Hne2].
    inversion Hne2 as [|? ? _ Hne2']; subst. split.
    + rewrite !all_file_names_app, !length_app.
      unfold all_file_names. cbn [hash_dict flat_map snd get_file_names
        add_file_name files set_files].
      rewrite !length_app. cbn [List.length]. unfold get_file_names. lia.
    + apply Forall_app. split; [exact Hne1|]. constructor; [|exact Hne2'].
      cbn. now destruct (files existing).
  - rewrite (add_file_new H fs file data {| hash_dict := d |} Hfs Hget).
    cbn [fst hash_dict]. split.
    + rewrite all_file_names_app, length_app. cbn. lia.
    + apply Forall_app. split; [exact Hne|]. constructor; [discriminate | constructor].
Qed.

Lemma register_files_counts : forall paths self,
  readable fs (registered os_path_isfile paths) ->
  every_entity_lists_a_file self ->
  List.length
    (all_file_names (state_after (register_files H fs os_path_isfile paths) self)) =
    (List.length (all_file_names self) +
     List.length (registered os_path_isfile paths))%nat /\
  every_entity_lists_a_file
    (state_after (register_files H fs os_path_isfile paths) self).
Proof.
  induction paths as [|file paths IH]; intros self Hread Hne; unfold state_after in *.
  - cbn. split; [lia | exact Hne].
  - rewrite register_files_cons. unfold registered in *. cbn [filter] in *.
    destruct (os_path_isfile file); [|now apply IH].
    inversion Hread as [|? ? Hfile Hrest]; subst.
    destruct (fs file) as [data|] eqn:Hfs; [|contradiction].
    destruct (add_file_counts file data self Hfs Hne) as [Hlen Hne'].
    unfold state_after in Hlen, Hne'.
    assert (Hok : snd (add_file H fs file self) = Ok tt).
    { destruct (dict_get (hash_dict self) (hash_bytes H data)) as [existing|] eqn:Hget.
      - now rewrite (add_file_known H fs _ _ _ _ Hfs Hget).
      - now rewrite (add_file_new H fs _ _ _ Hfs Hget). }
    destruct (add_file H fs file self) as [self' r]. cbn [fst snd] in *. subst r.
    destruct (IH self' Hrest Hne') as [Hlen' Hne''].
    split; [|exact Hne'']. rewrite Hlen', Hlen. cbn [List.length]. lia.
Qed.

Lemma entities_at_most_file_names : forall self,
  every_entity_lists_a_file self ->
  (List.length (hash_dict self) <= List.length (all_file_names self))%nat.
Proof.
  intros [d] Hne. unfold every_entity_lists_a_file, all_file_names in *.
  cbn [hash_dict] in *.
  induction Hne as [|[k e] d Hk _ IH]; cbn [flat_map List.length snd].
  - lia.
  - rewrite length_app. cbn in Hk. destruct (get_file_names e); [contradiction|].
    cbn [List.length]. lia.
Qed.

(** X6. Registering [N] readable files puts [N] file names into the
    registry, one for each file; every entity lists at least one file
    name, and there are at most [N] entities. *)
Theorem registration_loses_no_file :
  forall paths : list string,
    readable fs (registered os_path_isfile paths) ->
    let self := state_after (register_files H fs os_path_isfile paths) entityHandler_init in
    List.length (all_file_names self) = List.length (registered os_path_isfile paths) /\
    Forall (fun item => get_file_names (snd item) <> []) (hash_dict self) /\
    count_entities self <= Z.of_nat (List.length (registered os_path_isfile paths)).
Proof.
  intros paths Hread self.
  destruct (register_files_counts paths entityHandler_init Hread) as [Hlen Hne].
  { constructor. }
  fold self in Hlen, Hne. cbn in Hlen.
  split; [exact Hlen|]. split; [exact Hne|].
  unfold count_entities. rewrite <- Hlen.
  apply Nat2Z.inj_le. now apply entities_at_most_file_names.
Qed.

End Counting.

Lemma registration_loses_no_file_witness :
  let self := state_after (register_files plain_hashlib fs3 (fun _ => true)
                             ["dir/A"; "dir/C"; "dir/sub/B"; "dir/A"]) entityHandler_init in
  List.length (all_file_names self) = 4%nat /\ count_entities self <= 4.
Proof.
  destruct (registration_loses_no_file plain_hashlib fs3 (fun _ => true)
              ["dir/A"; "dir/C"; "dir/sub/B"; "dir/A"]) as (Hlen & _ & Hcount).
  - repeat constructor; discriminate.
  - exact (conj Hlen Hcount).
Defined.

(** ** Recording a response, call after call *)

(** X7. Whether [add_virustotal_result] raises, and what, is decided by
    the response alone: the entity it is called on plays no part. *)
Theorem record_outcome_by_response :
  forall (response : pyval) (e1 e2 : observedEntity),
    outcome (add_virustotal_result response) e1 =
    outcome (add_virustotal_result response) e2.
Proof.
  intros response e1 e2. run_method.
  destruct (py_getitem response "results") as [results|ex]; [|reflexivity].
  destruct (py_getitem results "response_code") as [code|ex]; [|reflexivity].
  destruct (py_eq_1 code); [|reflexivity].
  cbn. destruct (py_getitem results "total") as [total|ex]; [|reflexivity].
  cbn. destruct (py_getitem results "positives") as [pos|ex]; [|reflexivity].
  cbn. destruct (py_getitem results "scan_date") as [date|ex]; reflexivity.
Qed.

(** X8. Recording the same response a second time changes nothing: the
    entity and the outcome are those of the first call. *)
Theorem record_twice_is_record_once :
  forall (response : pyval) (e : observedEntity),
    add_virustotal_result response (state_after (add_virustotal_result response) e) =
    add_virustotal_result response e.
Proof.
  intros response e. run_method.
  destruct (py_getitem response "results") as [results|ex]; [|reflexivity].
  destruct (py_getitem results "response_code") as [code|ex]; [|reflexivity].
  destruct (py_eq_1 code); [|reflexivity].
  cbn. destruct (py_getitem results "total") as [total|ex]; [|reflexivity].
  cbn. destruct (py_getitem results "positives") as [pos|ex]; [|reflexivity].
  cbn. destruct (py_getitem results "scan_date") as [date|ex]; reflexivity.
Qed.

(** X9. The call is not atomic: the attributes are assigned one by one,
    so a successful lookup that lacks [positives] has already replaced
    [total_scanners] when the [KeyError] is raised, and one that lacks
    [scan_date] has replaced both counts. *)
Theorem record_assigns_before_raising :
  forall (response results code total : pyval) (e : observedEntity),
    py_getitem response "results" = Ok results ->
    py_getitem results "response_code" = Ok code ->
    py_eq_1 code = true ->
    py_getitem results "total" = Ok total ->
    (forall ex,
       py_getitem results "positives" = Raise ex ->
       add_virustotal_result response e =
       (set_total_scanners total (set_vt_result response e), Raise ex)) /\
    (forall pos ex,
       py_getitem results "positives" = Ok pos ->
       py_getitem results "scan_date" = Raise ex ->
       add_virustotal_result response e =
       (set_positives pos (set_total_scanners total (set_vt_result response e)),
        Raise ex)).
Proof.
  intros response results code total e Hres Hcode Heq Ht. split.
  - intros ex Hp. run_method.
    repeat (first [rewrite Hres | rewrite Hcode | rewrite Heq
                  | rewrite Ht | rewrite Hp]; cbn [fst snd]).
    reflexivity.
  - intros pos ex Hp Hd. run_method.
    repeat (first [rewrite Hres | rewrite Hcode | rewrite Heq
                  | rewrite Ht | rewrite Hp | rewrite Hd]; cbn [fst snd]).
    reflexivity.
Qed.

Lemma record_assigns_before_raising_witness :
  let response :=
    PDict [("results", PDict [("response_code", PInt 1); ("total", PInt 60)])] in
  add_virustotal_result response (observedEntity_init file_A) =
  (set_total_scanners (PInt 60) (set_vt_result response (observedEntity_init file_A)),
   Raise (KeyError "positives")).
Proof.
  intros response.
  exact (proj1 (record_assigns_before_raising response _ _ _ (observedEntity_init file_A)
                  eq_refl eq_refl eq_refl eq_refl) _ eq_refl).
Defined.

(** X10. The counts can be older than the raw result: when a successful
    lookup is followed by a response whose code is not 1, the entity
    keeps the counts and the scan date of the lookup, and so its verdict,
    while [get_virustotal_result] returns the later response. *)
Theorem counts_outlive_later_response :
  forall (first later results code : pyval) (e : observedEntity),
    py_getitem later "results" = Ok results ->
    py_getitem results "response_code" = Ok code ->
    py_eq_1 code = false ->
    let e1 := state_after (add_virustotal_result first) e in
    let e2 := state_after (add_virustotal_result later) e1 in
    count_total_scanners e2 = count_total_scanners e1 /\
    count_alerting_scanners e2 = count_alerting_scanners e1 /\
    scan_date e2 = scan_date e1 /\
    verdict e2 = verdict e1 /\
    get_virustotal_result e2 = later.
Proof.
  intros first later results code e Hres Hcode Hne e1 e2.
  assert (He2 : e2 = set_vt_result later e1).
  { subst e2. unfold state_after at 1.
    now rewrite (avr_not_found later results code e1 Hres Hcode Hne). }
  rewrite He2. repeat split.
Qed.

Lemma counts_outlive_later_response_witness :
  let e2 := state_after (add_virustotal_result unknown_report) six_of_sixty in
  count_total_scanners e2 = PInt 60 /\
  verdict e2 = Ok true /\
  get_virustotal_result e2 = unknown_report.
Proof.
  destruct (counts_outlive_later_response (found_report (PInt 60) (PInt 6))
              unknown_report _ _ (observedEntity_init file_A) eq_refl eq_refl eq_refl)
    as (Ht & _ & _ & Hv & Hraw).
  split; [exact Ht|]. split; [exact Hv | exact Hraw].
Defined.

(** ** The polling loop, entity by entity *)

Section PollingLoop.

Variable vt_get_file_report : string -> pyval.

Lemma avr_stores_response : forall response e,
  vt_result (fst (add_virustotal_result response e)) = response.
Proof.
  intros response e. run_method.
  destruct (py_getitem response "results") as [results|ex]; [|reflexivity].
  destruct (py_getitem results "response_code") as [code|ex]; [|reflexivity].
  destruct (py_eq_1 code); [|reflexivity].
  cbn. destruct (py_getitem results "total") as [total|ex]; [|reflexivity].
  cbn. destruct (py_getitem results "positives") as [pos|ex]; [|reflexivity].
  cbn. destruct (py_getitem results "scan_date") as [date|ex]; reflexivity.
Qed.

Lemma poll_cons : forall wt k e rest w,
  poll vt_get_file_report wt ((k, e) :: rest) w =
  match add_virustotal_result (vt_get_file_report k) e with
  | (e', Raise ex) => (((k, e') :: rest, w ++ [EvQuery k]), Raise ex)
  | (e', Ok _) =>
      match poll vt_get_file_report wt rest ((w ++ [EvQuery k]) ++ [EvSleep wt]) with
      | ((rest', w'), r) => (((k, e') :: rest', w'), r)
      end
  end.
Proof.
  intros wt k e rest w. cbn [poll].
  unfold get_file_report_events, time_sleep, emit, bind, modify, ret.
  destruct (add_virustotal_result (vt_get_file_report k) e) as [e' [[]|ex]];
    reflexivity.
Qed.

(** A poll that returns has recorded for every entity the report of its
    own hash, and queried and slept once for each. *)
Lemma poll_completes : forall wt items w,
  snd (poll vt_get_file_report wt items w) = Ok tt ->
  fst (poll vt_get_file_report wt items w) =
  (map (polled_entity vt_get_file_report) items, w ++ polled_trace wt items).
Proof.
  intros wt items. induction items as [|[k e] items IH]; intros w.
  - intros _. cbn. now rewrite app_nil_r.
  - rewrite poll_cons. cbn [map]. unfold polled_entity at 1. cbn [fst snd].
    unfold state_after at 1.
    destruct (add_virustotal_result (vt_get_file_report k) e) as [e' [[]|ex]];
      cbn [fst snd]; [|discriminate].
    specialize (IH ((w ++ [EvQuery k]) ++ [EvSleep wt])).
    destruct (poll vt_get_file_report wt items ((w ++ [EvQuery k]) ++ [EvSleep wt]))
      as [[items' w'] r]. cbn [fst snd] in *.
    intros Hr. specialize (IH Hr). injection IH as -> ->.
    cbn [polled_trace flat_map fst]. now rewrite <- !app_assoc.
Qed.

(** A poll that raises stopped at one entity: the entities before it
    were polled, its own query was the last event, and the entities
    after it were left as they were. *)
Lemma poll_aborts : forall wt items w ex,
  snd (poll vt_get_file_report wt items w) = Raise ex ->
  exists polled k e rest,
    items = polled ++ (k, e) :: rest /\
    outcome (add_virustotal_result (vt_get_file_report k)) e = Raise ex /\
    Forall (fun item =>
      outcome (add_virustotal_result (vt_get_file_report (fst item))) (snd item) = Ok tt)
      polled /\
    fst (poll vt_get_file_report wt items w) =
    (map (polled_entity vt_get_file_report) polled ++
       (k, state_after (add_virustotal_result (vt_get_file_report k)) e) :: rest,
     w ++ polled_trace wt polled ++ [EvQuery k]).
Proof.
  intros wt items. induction items as [|[k e] items IH]; intros w ex.
  - discriminate.
  - rewrite poll_cons.
    destruct (add_virustotal_result (vt_get_file_report k) e) as [e' [[]|ex']] eqn:Havr.
    + specialize (IH ((w ++ [EvQuery k]) ++ [EvSleep wt]) ex).
      destruct (poll vt_get_file_report wt items ((w ++ [EvQuery k]) ++ [EvSleep wt]))
        as [[items' w'] r]. cbn [fst snd] in *.
      intros Hr. destruct (IH Hr) as (polled & k0 & e0 & rest & -> & Hout & Hall & Hfst).
      injection Hfst as -> ->.
      exists ((k, e) :: polled), k0, e0, rest. repeat split.
      * exact Hout.
      * constructor; [|exact Hall]. exact (f_equal snd Havr).
      * assert (Hpe : polled_entity vt_get_file_report (k, e) = (k, e'))
          by (unfold polled_entity, state_after; cbn [fst snd]; now rewrite Havr).
        cbn [map polled_trace flat_map fst app]. rewrite Hpe.
        now rewrite <- !app_assoc.
    + cbn [fst snd]. intros [= ->].
      exists [], k, e, items. repeat split.
      * exact (f_equal snd Havr).
      * constructor.
      * unfold state_after. now rewrite Havr.
Qed.

Lemma dict_get_polled : forall d key,
  dict_get (map (polled_entity vt_get_file_report) d) key =
  match dict_get d key with
  | Some e =>
      Some (state_after (add_virustotal_result (vt_get_file_report key)) e)
  | None => None
  end.
Proof.
  induction d as [|[k e] d IH]; intros key; cbn [map dict_get polled_entity fst snd].
  - reflexivity.
  - destruct (String.eqb_spec k key) as [->|Hne]; [reflexivity | apply IH].
Qed.

(** X11. A polling phase that returns has handed every entity the report
    of its own hash and of no other: the registry is the old one with
    each entity updated by [add_virustotal_result] on the report for its
    key, so that [get_virustotal_result] is that report, and keys, order,
    number of entities and file names are as before. *)
Theorem poll_hands_each_entity_its_report :
  forall (entity_handler self : entityHandler) (w : world),
    outcome (retrieve_virustotal_results vt_get_file_report entity_handler) (self, w)
      = Ok tt ->
    let self' :=
      fst (state_after (retrieve_virustotal_results vt_get_file_report entity_handler)
             (self, w)) in
    hash_dict self' = map (polled_entity vt_get_file_report) (hash_dict self) /\
    (forall key e',
       dict_get (hash_dict self') key = Some e' ->
       get_virustotal_result e' = vt_get_file_report key) /\
    keys (hash_dict self') = keys (hash_dict self) /\
    count_entities self' = count_entities self /\
    (forall key, file_names_under self' key = file_names_under self key).
Proof.
  intros entity_handler self w Hok self'.
  assert (Hdict : hash_dict self' = map (polled_entity vt_get_file_report) (hash_dict self)).
  { subst self'. unfold outcome, state_after, retrieve_virustotal_results,
      get_entities in *. cbn [fst snd] in *.
    pose proof (poll_completes
      (if count_entities entity_handler <=? 4 then 0 else 15) (hash_dict self) w) as Hc.
    destruct (poll vt_get_file_report _ (hash_dict self) w) as [[items w'] r].
    cbn [fst snd] in *. specialize (Hc Hok). now injection Hc as -> _. }
  split; [exact Hdict|]. rewrite Hdict. split; [|split; [|split]].
  - intros key e'. rewrite dict_get_polled.
    destruct (dict_get (hash_dict self) key) as [e|]; [|discriminate].
    intros [= <-]. apply avr_stores_response.
  - unfold keys. rewrite map_map. reflexivity.
  - unfold count_entities. rewrite Hdict. now rewrite length_map.
  - intros key. unfold file_names_under. rewrite Hdict, dict_get_polled.
    destruct (dict_get (hash_dict self) key) as [e|]; [|reflexivity].
    apply (avr_files_hash (vt_get_file_report key) e).
Qed.

(** X12. A polling phase that raises stopped at the first entity whose
    report makes [add_virustotal_result] raise: the entities before it
    were polled, the failing query is the last event with no sleep after
    it, the failing entity holds what was assigned before the error, and
    the entities after it were neither queried nor changed. *)
Theorem poll_stops_at_first_error :
  forall (entity_handler self : entityHandler) (w : world) (ex : exn),
    outcome (retrieve_virustotal_results vt_get_file_report entity_handler) (self, w)
      = Raise ex ->
    let waiting_time := if count_entities entity_handler <=? 4 then 0 else 15 in
    let st' := state_after (retrieve_virustotal_results vt_get_file_report entity_handler)
                 (self, w) in
    exists polled key e rest,
      hash_dict self = polled ++ (key, e) :: rest /\
      outcome (add_virustotal_result (vt_get_file_report key)) e = Raise ex /\
      Forall (fun item =>
        outcome (add_virustotal_result (vt_get_file_report (fst item))) (snd item)
          = Ok tt) polled /\
      hash_dict (fst st') =
        map (polled_entity vt_get_file_report) polled ++
        (key, state_after (add_virustotal_result (vt_get_file_report key)) e) :: rest /\
      snd st' = w ++ polled_trace waiting_time polled ++ [EvQuery key].
Proof.
  intros entity_handler self w ex Hraise waiting_time st'. subst st'.
  unfold outcome, state_after, retrieve_virustotal_results, get_entities in *.
  cbn [fst snd] in *. fold waiting_time in Hraise |- *.
  pose proof (poll_aborts waiting_time (hash_dict self) w ex) as Ha.
  destruct (poll vt_get_file_report waiting_time (hash_dict self) w) as [[items w'] r].
  cbn [fst snd] in *.
  destruct (Ha Hraise) as (polled & key & e & rest & E & Hout & Hall & Hfst).
  injection Hfst as -> ->.
  exists polled, key, e, rest. repeat split; assumption.
Qed.

(** X13. The length of the pauses is read from the module-level handler
    [entity_handler], not from the handler being polled: every pause of
    the loop lasts 0 seconds when [entity_handler] holds at most 4
    entities and 15 seconds otherwise, however many entities [self]
    holds, and there are at most as many pauses as [self] has entities. *)
Theorem pauses_follow_module_handler :
  forall (entity_handler self : entityHandler) (w : world),
    let waiting_time := if count_entities entity_handler <=? 4 then 0 else 15 in
    let w' := snd (state_after
                (retrieve_virustotal_results vt_get_file_report entity_handler)
                (self, w)) in
    exists n : nat,
      sleeps w' = sleeps w ++ repeat waiting_time n /\
      (n <= List.length (hash_dict self))%nat.
Proof.
  intros entity_handler self w waiting_time w'. subst w'.
  unfold state_after, retrieve_virustotal_results, get_entities. cbn [fst snd].
  fold waiting_time.
  destruct (poll_shape vt_get_file_report waiting_time (hash_dict self) w)
    as (polled & pending & E & Htrace & _ & _).
  destruct (poll vt_get_file_report waiting_time (hash_dict self) w) as [[items w'] r].
  cbn [fst snd] in *.
  exists (List.length polled). split.
  - rewrite Htrace, !sleeps_app, sleeps_polled_trace.
    destruct pending as [|[k x] pending]; cbn; now rewrite app_nil_r.
  - rewrite E, length_app. lia.
Qed.

End PollingLoop.

Lemma poll_hands_each_entity_its_report_witness :
  let self := state_after (register_files plain_hashlib fs3 (fun _ => true)
                             ["dir/A"; "dir/C"]) entityHandler_init in
  let self' := fst (state_after
                 (retrieve_virustotal_results (fun _ => unknown_report) self) (self, [])) in
  keys (hash_dict self') = ["same"; "other"] /\
  count_entities self' = 2.
Proof.
  intros self self'.
  destruct (poll_hands_each_entity_its_report (fun _ => unknown_report) self self []
              eq_refl) as (_ & _ & Hkeys & Hcount & _).
  split; [exact Hkeys | exact Hcount].
Defined.

Lemma poll_stops_at_first_error_witness :
  let self := state_after (register_files plain_hashlib fs3 (fun _ => true)
                             ["dir/A"; "dir/C"]) entityHandler_init in
  exists polled key e rest,
    hash_dict self = polled ++ (key, e) :: rest /\
    snd (state_after (retrieve_virustotal_results (fun _ => rate_limit_report) self)
           (self, [])) =
    [] ++ polled_trace 0 polled ++ [EvQuery key].
Proof.
  intros self.
  destruct (poll_stops_at_first_error (fun _ => rate_limit_report) self self []
              (KeyError "results") eq_refl)
    as (polled & key & e & rest & E & _ & _ & _ & Htrace).
  exists polled, key, e, rest. split; [exact E | exact Htrace].
Defined.

(** ** The pauses of the polling loop *)

Lemma firstn_length_app : forall (A : Type) (l1 l2 : list A),
  firstn (List.length l1) (l1 ++ l2) = l1.
Proof.
  intros A l1 l2. induction l1 as [|x l1 IH]; cbn.
  - reflexivity.
  - now rewrite IH.
Qed.

Section Pauses.

Variable vt_get_file_report : string -> pyval.

(** C6 (amended). The sleep interval is 0 seconds when the handler holds
    at most 4 entities and 15 seconds otherwise, and the loop sleeps
    after every query whose answer was recorded, the last one included,
    not between queries.  A polling phase that returns is a query
    followed by a sleep for each entity, so that there are as many
    pauses as queries: 5 pauses of 15 seconds for 5 entities.  A polling
    phase that stops with an exception has made one pause fewer than
    queries, none after the query that failed. *)
Theorem sleep_after_every_query :
  forall (self : entityHandler) (w : world),
    let res := retrieve_virustotal_results vt_get_file_report self (self, w) in
    exists answered : nat,
      (answered <= List.length (hash_dict self))%nat /\
      (count_entities self <= 4 ->
       sleeps (snd (fst res)) = sleeps w ++ repeat 0 answered) /\
      (4 < count_entities self ->
       sleeps (snd (fst res)) = sleeps w ++ repeat 15 answered) /\
      (snd res = Ok tt ->
       answered = List.length (hash_dict self) /\
       queries (snd (fst res)) = queries w ++ keys (hash_dict self) /\
       snd (fst res) =
         w ++ polled_trace (if count_entities self <=? 4 then 0 else 15)
                (hash_dict self) /\
       (count_entities self = 5 ->
        sleeps (snd (fst res)) = sleeps w ++ [15; 15; 15; 15; 15])) /\
      (forall ex, snd res = Raise ex ->
       (answered < List.length (hash_dict self))%nat /\
       queries (snd (fst res)) =
         queries w ++ firstn (S answered) (keys (hash_dict self))).
Proof.
  intros self w res. subst res.
  unfold retrieve_virustotal_results, get_entities. cbn [fst snd].
  set (wt := if count_entities self <=? 4 then 0 else 15).
  assert (Hlow : count_entities self <= 4 -> wt = 0).
  { intros Hle. subst wt. destruct (Z.leb_spec (count_entities self) 4); lia. }
  assert (Hhigh : 4 < count_entities self -> wt = 15).
  { intros Hgt. subst wt. destruct (Z.leb_spec (count_entities self) 4); lia. }
  pose proof (poll_completes vt_get_file_report wt (hash_dict self) w) as Hdone.
  pose proof (poll_aborts vt_get_file_report wt (hash_dict self) w) as Habort.
  destruct (poll vt_get_file_report wt (hash_dict self) w) as [[items w'] r].
  cbn [fst snd] in *.
  destruct r as [[]|e].
  - specialize (Hdone eq_refl). injection Hdone as -> ->.
    assert (Hs : forall i, wt = i ->
      sleeps (w ++ polled_trace wt (hash_dict self)) =
      sleeps w ++ repeat i (List.length (hash_dict self))).
    { intros i <-. now rewrite sleeps_app, sleeps_polled_trace. }
    exists (List.length (hash_dict self)).
    split; [lia|]. split; [intros Hle; exact (Hs 0 (Hlow Hle))|].
    split; [intros Hgt; exact (Hs 15 (Hhigh Hgt))|]. split; [|discriminate].
    intros _. split; [reflexivity|].
    split; [now rewrite queries_app, queries_polled_trace|].
    split; [reflexivity|].
    intros Hfive. rewrite (Hs 15) by (apply Hhigh; lia).
    unfold count_entities in Hfive.
    replace (List.length (hash_dict self)) with 5%nat by lia. reflexivity.
  - destruct (Habort e eq_refl) as (polled & k & x & rest & E & _ & _ & Hfst).
    injection Hfst as -> ->.
    assert (Hs : forall i, wt = i ->
      sleeps (w ++ polled_trace wt polled ++ [EvQuery k]) =
      sleeps w ++ repeat i (List.length polled)).
    { intros i <-. rewrite !sleeps_app, sleeps_polled_trace. cbn.
      now rewrite app_nil_r. }
    exists (List.length polled).
    split; [rewrite E, length_app; lia|].
    split; [intros Hle; exact (Hs 0 (Hlow Hle))|].
    split; [intros Hgt; exact (Hs 15 (Hhigh Hgt))|]. split; [discriminate|].
    intros ex _. split; [rewrite E, length_app; cbn; lia|].
    rewrite !queries_app, queries_polled_trace, E.
    change (queries [EvQuery k]) with [k]. f_equal. unfold keys. rewrite map_app. cbn [map fst].
    replace (map fst polled ++ k :: map fst rest)
      with ((map fst polled ++ [k]) ++ map fst rest)
      by (now rewrite <- app_assoc).
    replace (S (List.length polled))
      with (List.length (map fst polled ++ [k]))
      by (rewrite length_app, length_map; cbn; lia).
    now rewrite firstn_length_app.
Qed.

End Pauses.

Lemma sleep_after_every_query_witness :
  let self := state_after (register_files plain_hashlib fs5 (fun _ => true) five_files)
                entityHandler_init in
  sleeps (snd (fst (retrieve_virustotal_results (fun _ => unknown_report) self (self, []))))
  = [15; 15; 15; 15; 15].
Proof.
  intros self.
  destruct (sleep_after_every_query (fun _ => unknown_report) self [])
    as (answered & _ & _ & _ & Hpoll & _).
  destruct (Hpoll eq_refl) as (_ & _ & _ & Hfive).
  exact (Hfive eq_refl).
Defined.

(** ** The report *)

(** What [is_malicious] does in any state of the console. *)
Lemma is_malicious_run : forall e w,
  is_malicious e w =
  match py_truediv (positives e) (total_scanners e) with
  | Ok ratio => (w ++ [EvPrintRatio ratio], Ok (float_ge ratio float_0_1))
  | Raise ex => (w, Raise ex)
  end.
Proof.
  intros e w. run_method. unfold count_alerting_scanners, count_total_scanners.
  destruct (py_truediv (positives e) (total_scanners e)) as [ratio|ex] eqn:Hdiv;
    cbn [fst snd]; [|reflexivity].
  reflexivity.
Qed.

Lemma verdict_run : forall e,
  verdict e =
  match py_truediv (positives e) (total_scanners e) with
  | Ok ratio => Ok (float_ge ratio float_0_1)
  | Raise ex => Raise ex
  end.
Proof.
  intros e. unfold verdict, outcome. rewrite is_malicious_run.
  now destruct (py_truediv (positives e) (total_scanners e)).
Qed.

Lemma report_cons : forall k e rest w,
  report ((k, e) :: rest) w =
  match verdict e with
  | Ok _ => report rest (w ++ report_lines (k, e))
  | Raise ex => (w, Raise ex)
  end.
Proof.
  intros k e rest w. cbn [report]. unfold bind at 1. rewrite is_malicious_run, verdict_run.
  unfold report_lines. cbn [fst snd].
  destruct (py_truediv (positives e) (total_scanners e)) as [ratio|ex]; [|reflexivity].
  unfold bind, emit, modify.
  destruct (float_ge ratio float_0_1); cbn [fst snd];
    rewrite <- !app_assoc; reflexivity.
Qed.

Lemma report_returns : forall items w,
  Forall verdict_returns items ->
  report items w = (w ++ flat_map report_lines items, Ok tt).
Proof.
  induction items as [|[k e] items IH]; intros w Hall.
  - cbn. now rewrite app_nil_r.
  - inversion Hall as [|? ? [b Hb] Hall']; subst. cbn [snd] in Hb.
    rewrite report_cons, Hb, (IH _ Hall'). cbn [flat_map].
    now rewrite app_assoc.
Qed.

Lemma report_returns_inv : forall items w,
  snd (report items w) = Ok tt -> Forall verdict_returns items.
Proof.
  induction items as [|[k e] items IH]; intros w Hok.
  - constructor.
  - rewrite report_cons in Hok.
    destruct (verdict e) as [b|ex] eqn:Hv; [|discriminate].
    constructor; [now exists b | eapply IH; eassumption].
Qed.

Lemma report_lines_print : forall item, forallb is_print (report_lines item) = true.
Proof.
  intros [k e]. unfold report_lines. cbn [fst snd].
  destruct (py_truediv (positives e) (total_scanners e)) as [ratio|ex]; [|reflexivity].
  now destruct (float_ge ratio float_0_1).
Qed.

(** The report only prints: it extends the console by print events. *)
Lemma report_prints : forall items w,
  exists out, fst (report items w) = w ++ out /\ forallb is_print out = true.
Proof.
  induction items as [|[k e] items IH]; intros w.
  - exists []. cbn. now rewrite app_nil_r.
  - rewrite report_cons. destruct (verdict e) as [b|ex].
    + destruct (IH (w ++ report_lines (k, e))) as (out & Hout & Hprint).
      exists (report_lines (k, e) ++ out). split.
      * now rewrite Hout, app_assoc.
      * now rewrite forallb_app, report_lines_print, Hprint.
    + exists []. cbn. now rewrite app_nil_r.
Qed.

(** X14. The report stops at the first entity whose verdict raises: the
    entities before it are printed, the error is that of the verdict, and
    nothing is printed for the failing entity or for those after it. *)
Theorem report_stops_at_first_error :
  forall (printed rest : list (string * observedEntity))
         (key : string) (e : observedEntity) (w : world) (ex : exn),
    Forall verdict_returns printed ->
    verdict e = Raise ex ->
    report (printed ++ (key, e) :: rest) w =
    (w ++ flat_map report_lines printed, Raise ex).
Proof.
  induction printed as [|[k x] printed IH]; intros rest key e w ex Hall Hv.
  - cbn [app flat_map]. now rewrite report_cons, Hv, app_nil_r.
  - inversion Hall as [|? ? [b Hb] Hall']; subst. cbn [snd] in Hb.
    rewrite <- app_comm_cons, report_cons, Hb, (IH rest key e _ ex Hall' Hv).
    cbn [flat_map]. now rewrite app_assoc.
Qed.

Lemma reported_malicious_lines : forall item,
  verdict_returns item ->
  reported_malicious (report_lines item) =
  if verdict_is_true item then [fst item] else [].
Proof.
  intros [k e] [b Hb]. unfold verdict_is_true, report_lines. cbn [fst snd] in *.
  rewrite verdict_run in *.
  destruct (py_truediv (positives e) (total_scanners e)) as [ratio|ex]; [|discriminate].
  now destruct (float_ge ratio float_0_1).
Qed.

Lemma reported_results_lines : forall item,
  verdict_returns item ->
  reported_results (report_lines item) = [get_virustotal_result (snd item)].
Proof.
  intros [k e] [b Hb]. unfold report_lines. cbn [fst snd] in *.
  rewrite verdict_run in Hb.
  destruct (py_truediv (positives e) (total_scanners e)) as [ratio|ex]; [|discriminate].
  now destruct (float_ge ratio float_0_1).
Qed.

(** X15. A report that returns prints, in the order of the registry, the
    raw result of every entity, and prints as potentially malicious
    exactly the hashes of the entities for which [is_malicious] returns
    [True]. *)
Theorem report_names_the_malicious :
  forall (items : list (string * observedEntity)) (w : world),
    snd (report items w) = Ok tt ->
    exists out,
      fst (report items w) = w ++ out /\
      reported_malicious out = map fst (filter verdict_is_true items) /\
      reported_results out = map (fun item => get_virustotal_result (snd item)) items.
Proof.
  intros items w Hok.
  pose proof (report_returns_inv items w Hok) as Hall.
  exists (flat_map report_lines items).
  rewrite (report_returns items w Hall). cbn [fst]. split; [reflexivity|].
  clear Hok. induction Hall as [|item items Hitem _ [IHm IHr]].
  - split; reflexivity.
  - cbn [flat_map filter map]. unfold reported_malicious, reported_results in *.
    rewrite !flat_map_app. split.
    + fold (reported_malicious (report_lines item)).
      rewrite (reported_malicious_lines item Hitem), IHm.
      now destruct (verdict_is_true item).
    + fold (reported_results (report_lines item)).
      now rewrite (reported_results_lines item Hitem), IHr.
Qed.

Lemma report_stops_at_first_error_witness :
  report ([("good", six_of_sixty)] ++ ("bad", none_of_none) :: [("late", six_of_sixty)]) [] =
  ([] ++ flat_map report_lines [("good", six_of_sixty)], Raise ZeroDivisionError).
Proof.
  apply (report_stops_at_first_error [("good", six_of_sixty)] [("late", six_of_sixty)]
           "bad" none_of_none [] ZeroDivisionError).
  - constructor; [|constructor]. exists true. reflexivity.
  - reflexivity.
Defined.

Lemma report_names_the_malicious_witness :
  exists out,
    fst (report [("good", six_of_sixty); ("new", observedEntity_init file_A)] []) = [] ++ out /\
    reported_malicious out = ["good"] /\
    reported_results out = [found_report (PInt 60) (PInt 6); PStr ""].
Proof.
  destruct (report_names_the_malicious
              [("good", six_of_sixty); ("new", observedEntity_init file_A)] [] eq_refl)
    as (out & Hout & Hm & Hr).
  exists out. split; [exact Hout|]. split; [exact Hm | exact Hr].
Defined.

(** ** What a run can raise, and when *)

Lemma py_getitem_raises : forall v key ex,
  py_getitem v key = Raise ex -> ex = TypeError \/ ex = KeyError key.
Proof.
  intros v key ex. unfold py_getitem.
  destruct v; try (intros [= <-]; now left).
  destruct (dict_get d key); [discriminate|]. intros [= <-]. now right.
Qed.

(** [add_virustotal_result] raises nothing but the errors of its
    subscripts. *)
Lemma avr_raises : forall response e ex,
  outcome (add_virustotal_result response) e = Raise ex ->
  ex = TypeError \/ exists key, ex = KeyError key.
Proof.
  intros response e ex. run_method.
  assert (Hsub : forall v key ex',
    py_getitem v key = Raise ex' -> ex' = TypeError \/ exists k, ex' = KeyError k).
  { intros v key ex' Hget. destruct (py_getitem_raises v key ex' Hget); eauto. }
  destruct (py_getitem response "results") as [results|ex1] eqn:H1; cbn [fst snd].
  2:{ intros [= <-]. eauto. }
  destruct (py_getitem results "response_code") as [code|ex2] eqn:H2; cbn [fst snd].
  2:{ intros [= <-]. eauto. }
  destruct (py_eq_1 code); [|discriminate].
  cbn. destruct (py_getitem results "total") as [total|ex3] eqn:H3; cbn [fst snd].
  2:{ intros [= <-]. eauto. }
  cbn. destruct (py_getitem results "positives") as [pos|ex4] eqn:H4; cbn [fst snd].
  2:{ intros [= <-]. eauto. }
  cbn. destruct (py_getitem results "scan_date") as [date|ex5] eqn:H5; cbn [fst snd].
  2:{ intros [= <-]. eauto. }
  discriminate.
Qed.

(** The division raises nothing but [TypeError], [ZeroDivisionError] and
    [OverflowError]. *)
Lemma py_truediv_raises : forall a b ex,
  py_truediv a b = Raise ex ->
  ex = TypeError \/ ex = ZeroDivisionError \/ ex = OverflowError.
Proof.
  intros a b ex. unfold py_truediv.
  assert (Hconv : forall n ex', number_to_float n = Raise ex' -> ex' = OverflowError).
  { intros [z|f] ex'; cbn; [|discriminate]. unfold int_to_float.
    destruct (binary_normalize prec emax z 0 false); try discriminate.
    now intros [= <-]. }
  destruct (as_number a) as [[x|fx]|]; [| |intros [= <-]; now left].
  - destruct (as_number b) as [[y|fy]|]; [| |intros [= <-]; now left].
    + destruct (y =? 0); [intros [= <-]; tauto|].
      destruct (SFdiv prec emax (Z2SF x) (Z2SF y)); try discriminate.
      intros [= <-]. tauto.
    + destruct (number_to_float (NInt x)) as [f|ex'] eqn:Hx.
      * cbn [number_to_float]. destruct (is_float_zero fy); [|discriminate].
        intros [= <-]. tauto.
      * intros [= <-]. rewrite (Hconv _ _ Hx). tauto.
  - destruct (as_number b) as [n|]; [|intros [= <-]; now left].
    cbn [number_to_float].
    destruct (number_to_float n) as [f|ex'] eqn:Hn.
    + destruct (is_float_zero f); [|destruct n; discriminate].
      destruct n; intros [= <-]; tauto.
    + destruct n; intros [= <-]; rewrite (Hconv _ _ Hn); tauto.
Qed.

(** The report raises nothing but the errors of the division. *)
Lemma report_raises : forall items w ex,
  snd (report items w) = Raise ex ->
  ex = TypeError \/ ex = ZeroDivisionError \/ ex = OverflowError.
Proof.
  induction items as [|[k x] items IH]; intros w ex.
  - discriminate.
  - rewrite report_cons, verdict_run.
    destruct (py_truediv (positives x) (total_scanners x)) as [ratio|ex1] eqn:Hdiv;
      cbv beta iota.
    + apply IH.
    + cbn [snd]. intros [= <-]. exact (py_truediv_raises _ _ _ Hdiv).
Qed.

Section RunFailures.

Variable H : hashlib.
Variable fs : string -> option (list Byte.byte).
Variable os_path_isfile : string -> bool.
Variable vt_get_file_report : string -> pyval.

(** The registration loop raises nothing but the error of a registered
    file that cannot be read. *)
Lemma register_files_raises : forall paths self ex,
  snd (register_files H fs os_path_isfile paths self) = Raise ex ->
  exists file,
    ex = OSError file /\ In file (registered os_path_isfile paths) /\ fs file = None.
Proof.
  clear vt_get_file_report.
  induction paths as [|file paths IH]; intros self ex.
  - discriminate.
  - rewrite register_files_cons. unfold registered in *. cbn [filter].
    destruct (os_path_isfile file).
    + destruct (fs file) as [data|] eqn:Hfs.
      * destruct (add_file H fs file self) as [self' [[]|e]] eqn:Hadd.
        -- intros Hr. destruct (IH self' ex Hr) as (f & -> & Hin & Hf).
           exists f. split; [reflexivity|]. split; [now right | exact Hf].
        -- exfalso.
           destruct (dict_get (hash_dict self) (hash_bytes H data)) as [x|] eqn:Hget.
           ++ rewrite (add_file_known H fs _ _ _ _ Hfs Hget) in Hadd. discriminate.
           ++ rewrite (add_file_new H fs _ _ _ Hfs Hget) in Hadd. discriminate.
      * rewrite (add_file_unreadable H fs _ _ Hfs). intros [= <-].
        exists file. split; [reflexivity|]. split; [now left | exact Hfs].
    + intros Hr. destruct (IH self ex Hr) as (f & -> & Hin & Hf).
      exists f. repeat split; assumption.
Qed.

Lemma polled_trace_network : forall wt (items : list (string * observedEntity)),
  forallb is_network (polled_trace wt items) = true.
Proof.
  intros wt items. induction items as [|[k e] items IH]; [reflexivity | exact IH].
Qed.

(** X16. In every run the queries and pauses come first and the printing
    last: the events of a run are network events followed by print
    events, and if anything was printed at all then every entity of the
    registry had been queried before. *)
Theorem run_queries_before_printing :
  forall paths : list string,
    let res := run H fs os_path_isfile vt_get_file_report paths in
    exists net out,
      snd (fst res) = net ++ out /\
      forallb is_network net = true /\
      forallb is_print out = true /\
      (out <> [] -> queries net = keys (hash_dict (fst (fst res)))).
Proof.
  intros paths res. subst res. rewrite run_phases.
  destruct (register_files H fs os_path_isfile paths entityHandler_init)
    as [self [[]|e]]; cbn [fst snd].
  2:{ exists [], []. repeat split. intros Hne. now contradiction Hne. }
  set (wt := if count_entities self <=? 4 then 0 else 15).
  destruct (poll_shape vt_get_file_report wt (hash_dict self) [])
    as (polled & pending & E & Htrace & Hok & Hsame).
  destruct (poll vt_get_file_report wt (hash_dict self) []) as [[items w] r].
  cbn [fst snd app] in *.
  assert (Hnet : forallb is_network w = true).
  { rewrite Htrace, forallb_app, polled_trace_network.
    now destruct pending as [|[k x] pending]. }
  destruct r as [[]|e].
  - destruct (report_prints items w) as (out & Hout & Hprint).
    destruct (report items w) as [w' r']. cbn [fst snd] in *.
    exists w, out. split; [exact Hout|]. split; [exact Hnet|]. split; [exact Hprint|].
    intros _. rewrite (Hok eq_refl), app_nil_r in *. cbn [hash_dict].
    rewrite (same_files_keys _ _ Hsame), Htrace, queries_polled_trace. now rewrite E.
  - cbn [fst snd]. exists w, []. rewrite app_nil_r.
    repeat split; [exact Hnet|]. intros Hne. now contradiction Hne.
Qed.

(** X17. How a run fails.  An [OSError] comes from the registration: the
    file is a registered file that cannot be read, and nothing was
    queried or printed.  A [KeyError] comes from the polling: something
    was queried and nothing was printed.  A [ZeroDivisionError] or an
    [OverflowError] comes from the report: every entity had been
    queried. *)
Theorem run_failure_modes :
  forall (paths : list string) (ex : exn),
    let res := run H fs os_path_isfile vt_get_file_report paths in
    snd res = Raise ex ->
    match ex with
    | OSError file =>
        In file (registered os_path_isfile paths) /\ fs file = None /\
        snd (fst res) = []
    | KeyError _ =>
        snd (fst res) <> [] /\ forallb is_network (snd (fst res)) = true
    | ZeroDivisionError | OverflowError =>
        queries (snd (fst res)) = keys (hash_dict (fst (fst res)))
    | TypeError => True
    end.
Proof.
  intros paths ex res. subst res. rewrite run_phases.
  pose proof (register_files_raises paths entityHandler_init) as Hreg.
  destruct (register_files H fs os_path_isfile paths entityHandler_init)
    as [self [[]|e]]; cbn [fst snd] in *.
  2:{ intros [= ->]. destruct (Hreg ex eq_refl) as (file & -> & Hin & Hfs).
      repeat split; assumption. }
  clear Hreg.
  set (wt := if count_entities self <=? 4 then 0 else 15).
  pose proof (poll_aborts vt_get_file_report wt (hash_dict self) []) as Habort.
  pose proof (poll_completes vt_get_file_report wt (hash_dict self) []) as Hdone.
  destruct (poll vt_get_file_report wt (hash_dict self) []) as [[items w] r].
  cbn [fst snd app] in *.
  destruct r as [[]|e].
  - specialize (Hdone eq_refl). injection Hdone as -> ->.
    pose proof (report_quiet (map (polled_entity vt_get_file_report) (hash_dict self))
                  (polled_trace wt (hash_dict self))) as [Hq _].
    pose proof (report_raises (map (polled_entity vt_get_file_report) (hash_dict self))
                  (polled_trace wt (hash_dict self))) as Hkinds.
    destruct (report (map (polled_entity vt_get_file_report) (hash_dict self))
                (polled_trace wt (hash_dict self))) as [w' r'].
    cbn [fst snd] in *. intros ->.
    assert (Hkeys : queries w' =
      keys (map (polled_entity vt_get_file_report) (hash_dict self))).
    { rewrite Hq, queries_polled_trace. unfold keys. now rewrite map_map. }
    destruct (Hkinds ex eq_refl) as [->|[->| ->]]; [exact I | exact Hkeys | exact Hkeys].
  - cbn [fst snd]. intros [= ->].
    destruct (Habort ex eq_refl) as (polled & k & x & rest & E & Hout & _ & Hfst).
    injection Hfst as -> ->.
    destruct (avr_raises _ _ _ Hout) as [->|[key ->]]; [exact I|].
    split.
    + destruct (polled_trace wt polled); discriminate.
    + rewrite forallb_app, polled_trace_network. reflexivity.
Qed.

End RunFailures.

Lemma run_failure_modes_witness :
  let res := run plain_hashlib fs3 (fun _ => true) (fun _ => rate_limit_report)
               ["dir/A"; "dir/C"] in
  snd (fst res) <> [] /\ forallb is_network (snd (fst res)) = true.
Proof.
  exact (run_failure_modes plain_hashlib fs3 (fun _ => true) (fun _ => rate_limit_report)
           ["dir/A"; "dir/C"] (KeyError "results") eq_refl).
Defined.

Lemma run_queries_before_printing_witness :
  let res := run plain_hashlib fs3 (fun _ => true) (fun _ => unknown_report)
               ["dir/A"; "dir/C"] in
  exists net out,
    snd (fst res) = net ++ out /\
    forallb is_network net = true /\
    forallb is_print out = true /\
    (out <> [] -> queries net = keys (hash_dict (fst (fst res)))).
Proof.
  exact (run_queries_before_printing plain_hashlib fs3 (fun _ => true)
           (fun _ => unknown_report) ["dir/A"; "dir/C"]).
Defined.


(** ** The verdict on unusual counts *)

(** A conversion to float raises nothing but [OverflowError]. *)
Lemma number_to_float_raises : forall n ex,
  number_to_float n = Raise ex -> ex = OverflowError.
Proof.
  intros [z|f] ex; cbn; [|discriminate]. unfold int_to_float.
  destruct (binary_normalize prec emax z 0 false); try discriminate.
  now intros [= <-].
Qed.

(** The division raises [TypeError] exactly when an operand is not a
    number. *)
Lemma py_truediv_type_error : forall a b,
  py_truediv a b = Raise TypeError <->
  (as_number a = None \/ as_number b = None).
Proof.
  intros a b. unfold py_truediv. split.
  - destruct (as_number a) as [[x|fx]|]; [| |now left].
    + destruct (as_number b) as [[y|fy]|]; [| |now right].
      * destruct (y =? 0); [discriminate|].
        destruct (SFdiv prec emax (Z2SF x) (Z2SF y)); discriminate.
      * destruct (number_to_float (NInt x)) as [f|ex] eqn:Hx.
        -- cbn [number_to_float]. destruct (is_float_zero fy); discriminate.
        -- rewrite (number_to_float_raises _ _ Hx). discriminate.
    + destruct (as_number b) as [n|]; [|now right].
      cbn [number_to_float].
      destruct (number_to_float n) as [f|ex] eqn:Hn.
      * destruct (is_float_zero f); destruct n; discriminate.
      * rewrite (number_to_float_raises _ _ Hn). destruct n; discriminate.
  - intros [Ha|Hb].
    + now rewrite Ha.
    + rewrite Hb. now destruct (as_number a) as [[x|fx]|].
Qed.

(** X18. [is_malicious] raises [TypeError] exactly when one of the two
    counts taken from the response is not a number (a string, [None], a
    list or an object), and it has printed nothing then. *)
Theorem non_numeric_count_is_type_error : forall (e : observedEntity) (w : world),
  (as_number (positives e) = None \/ as_number (total_scanners e) = None) <->
  is_malicious e w = (w, Raise TypeError).
Proof.
  intros e w. rewrite is_malicious_run, <- py_truediv_type_error.
  destruct (py_truediv (positives e) (total_scanners e)) as [ratio|ex]; split.
  - discriminate.
  - discriminate.
  - now intros [= ->].
  - now intros [= ->].
Qed.

(** Zero divided by a number is never at least [0.1]. *)
Lemma zero_quotient_below_tenth : forall b ratio,
  py_truediv (PInt 0) b = Ok ratio -> float_ge ratio float_0_1 = false.
Proof.
  intros b ratio. unfold py_truediv. cbn [as_number].
  destruct (as_number b) as [[y|fy]|]; [| |discriminate].
  - destruct (y =? 0) eqn:Hy; [discriminate|].
    destruct y as [|y|y]; [discriminate| |]; cbn [Z2SF SFdiv xorb];
      intros [= <-]; reflexivity.
  - change (number_to_float (NInt 0)) with (@Ok spec_float (S754_zero false)).
    cbn [number_to_float].
    destruct fy as [s|s| |s m x]; cbn [is_float_zero SFdiv xorb];
      try discriminate; intros [= <-]; reflexivity.
Qed.

(** X19. A file that no scanner flags is never reported as malicious:
    with zero positives [is_malicious] returns [False] whenever it
    returns, and it does return for every int total other than zero,
    however large and whatever its sign. *)
Theorem unflagged_file_is_never_malicious : forall e : observedEntity,
  positives e = PInt 0 ->
  (forall b, verdict e = Ok b -> b = false) /\
  (forall t, total_scanners e = PInt t -> t <> 0 -> verdict e = Ok false).
Proof.
  intros e Hp. split.
  - intros b. rewrite verdict_run, Hp.
    destruct (py_truediv (PInt 0) (total_scanners e)) as [ratio|ex] eqn:Hdiv;
      [|discriminate].
    intros [= <-]. exact (zero_quotient_below_tenth _ _ Hdiv).
  - intros t Ht Hne. rewrite verdict_run, Hp, Ht.
    unfold py_truediv. cbn [as_number].
    destruct (Z.eqb_spec t 0) as [|_]; [contradiction|].
    destruct t as [|t|t]; [contradiction| |]; reflexivity.
Qed.

Lemma unflagged_file_is_never_malicious_witness :
  (forall b, verdict (observedEntity_init file_A) = Ok b -> b = false) /\
  (forall t, total_scanners (observedEntity_init file_A) = PInt t -> t <> 0 ->
             verdict (observedEntity_init file_A) = Ok false).
Proof.
  apply (unflagged_file_is_never_malicious (observedEntity_init file_A)).
  reflexivity.
Defined.

(** The verdict on int counts below [2^53] with a positive total. *)
Lemma verdict_small_counts : forall e p t,
  positives e = PInt p -> total_scanners e = PInt t ->
  0 <= p < 9007199254740992 -> 0 < t < 9007199254740992 ->
  verdict e = Ok (t <=? 10 * p).
Proof.
  intros e p t Hp Ht Hpr Htr. rewrite verdict_run, Hp, Ht.
  unfold py_truediv. cbn [as_number].
  destruct t as [|t|t]; try lia. cbn [Z.eqb].
  destruct p as [|p|p]; try lia.
  - reflexivity.
  - destruct (int_quotient_ge_tenth p t) as (m & x & Hq & Hge); try lia.
    rewrite Hq, Hge. reflexivity.
Qed.

(** X20. The verdict is monotone in the counts: for int counts below
    [2^53], an entity with at least as many positives and at most as many
    scanners as an entity that is malicious is malicious too. *)
Theorem more_positives_keep_the_verdict :
  forall (e e' : observedEntity) (p p' t t' : Z),
    positives e = PInt p -> total_scanners e = PInt t ->
    positives e' = PInt p' -> total_scanners e' = PInt t' ->
    0 <= p <= p' -> p' < 2 ^ 53 ->
    0 < t' <= t -> t < 2 ^ 53 ->
    verdict e = Ok true -> verdict e' = Ok true.
Proof.
  intros e e' p p' t t' Hp Ht Hp' Ht' Hpp Hp53 Htt Ht53.
  change (2 ^ 53) with 9007199254740992 in *.
  rewrite (verdict_small_counts e p t Hp Ht) by lia.
  rewrite (verdict_small_counts e' p' t' Hp' Ht') by lia.
  intros Hm. assert (Hle : (t <=? 10 * p) = true) by congruence.
  apply Z.leb_le in Hle. f_equal. apply Z.leb_le. lia.
Qed.

Lemma more_positives_keep_the_verdict_witness :
  verdict (set_positives (PInt 30) (set_total_scanners (PInt 50) six_of_sixty)) = Ok true.
Proof.
  apply (more_positives_keep_the_verdict six_of_sixty
           (set_positives (PInt 30) (set_total_scanners (PInt 50) six_of_sixty))
           6 30 60 50); first [reflexivity | lia].
Defined.


(** ** A run that goes through *)

(** Recording a usable report on an entity with the counts of a fresh
    one returns, and the verdict on the entity returns afterwards. *)
Lemma usable_report_recorded : forall response item,
  usable_report response -> default_counts item ->
  snd (add_virustotal_result response (snd item)) = Ok tt /\
  exists b, verdict (fst (add_virustotal_result response (snd item))) = Ok b.
Proof.
  intros response [k e] (results & code & Hres & Hcode & Hfound) [Hp0 Ht1].
  cbn [snd] in *. change (2 ^ 53) with 9007199254740992 in Hfound.
  destruct (py_eq_1 code) eqn:Heq.
  - destruct (Hfound eq_refl) as (t & p & date & Ht & Hp & Hd & Htr & Hpr).
    rewrite (avr_found _ _ _ _ _ _ e Hres Hcode Heq Ht Hp Hd). cbn [fst snd].
    split; [reflexivity|]. eexists.
    apply (verdict_small_counts _ p t); [reflexivity | reflexivity | lia | lia].
  - rewrite (avr_not_found _ _ _ e Hres Hcode Heq). cbn [fst snd].
    split; [reflexivity|]. eexists.
    apply (verdict_small_counts _ 0 1); [exact Hp0 | exact Ht1 | lia | lia].
Qed.

Lemma reported_results_polled_trace : forall wt (items : list (string * observedEntity)),
  reported_results (polled_trace wt items) = [].
Proof.
  intros wt items. induction items as [|[k e] items IH]; [reflexivity | exact IH].
Qed.

Lemma reported_results_report_lines : forall items,
  Forall verdict_returns items ->
  reported_results (flat_map report_lines items) =
  map (fun item => get_virustotal_result (snd item)) items.
Proof.
  intros items Hall. induction Hall as [|item items Hitem _ IH]; [reflexivity|].
  cbn [flat_map map]. unfold reported_results in *. rewrite flat_map_app.
  fold (reported_results (report_lines item)).
  now rewrite (reported_results_lines item Hitem), IH.
Qed.

Section RunSucceeds.

Variable H : hashlib.
Variable fs : string -> option (list Byte.byte).
Variable os_path_isfile : string -> bool.
Variable vt_get_file_report : string -> pyval.

(** The registration leaves every entity with the counts it was created
    with. *)
Lemma add_file_default_counts : forall file self,
  Forall default_counts (hash_dict self) ->
  Forall default_counts (hash_dict (fst (add_file H fs file self))).
Proof.
  clear os_path_isfile vt_get_file_report.
  intros file self Hall.
  destruct (fs file) as [data|] eqn:Hfs.
  - destruct (dict_get (hash_dict self) (hash_bytes H data)) as [existing|] eqn:Hget.
    + rewrite (add_file_known _ _ _ _ _ _ Hfs Hget). cbn [fst hash_dict].
      destruct (dict_set_present _ _ _ (add_file_name file existing) Hget)
        as (d1 & d2 & E & -> & _).
      rewrite E in Hall. apply Forall_app in Hall. destruct Hall as [H1 H2].
      inversion H2 as [|? ? Hx H2']; subst.
      apply Forall_app. split; [exact H1|]. constructor; [exact Hx | exact H2'].
    + rewrite (add_file_new _ _ _ _ _ Hfs Hget). cbn [fst hash_dict].
      apply Forall_app. split; [exact Hall|]. constructor; [|constructor].
      split; reflexivity.
  - now rewrite (add_file_unreadable _ _ _ _ Hfs).
Qed.

Lemma register_files_default_counts : forall paths self,
  Forall default_counts (hash_dict self) ->
  Forall default_counts
    (hash_dict (fst (register_files H fs os_path_isfile paths self))).
Proof.
  clear vt_get_file_report.
  induction paths as [|file rest IH]; intros self Hall.
  - exact Hall.
  - rewrite register_files_cons. destruct (os_path_isfile file); [|auto].
    pose proof (add_file_default_counts file self Hall) as Hstep.
    destruct (add_file H fs file self) as [self' [[]|e]]; cbn [fst] in *; auto.
Qed.

(** A poll in which every recording returns, returns. *)
Lemma poll_returns : forall wt items w,
  Forall (fun item =>
    snd (add_virustotal_result (vt_get_file_report (fst item)) (snd item)) = Ok tt)
    items ->
  snd (poll vt_get_file_report wt items w) = Ok tt.
Proof.
  clear H fs os_path_isfile.
  intros wt items. induction items as [|[k e] items IH]; intros w Hall.
  - reflexivity.
  - inversion Hall as [|? ? Hitem Hrest]; subst. cbn [fst snd] in Hitem.
    rewrite poll_cons.
    destruct (add_virustotal_result (vt_get_file_report k) e) as [e' [[]|ex]];
      cbn [snd] in Hitem; [|discriminate].
    specialize (IH ((w ++ [EvQuery k]) ++ [EvSleep wt]) Hrest).
    destruct (poll vt_get_file_report wt items ((w ++ [EvQuery k]) ++ [EvSleep wt]))
      as [[items' w'] r]. exact IH.
Qed.

(** X21. A run goes through when every registered file can be read and
    the report for the digest of every registered file is usable: the
    script returns, having queried every entity of the registry and
    printed, in the order of the registry, the report for the hash of
    each entity. *)
Theorem run_succeeds_on_usable_reports :
  forall paths : list string,
    readable fs (registered os_path_isfile paths) ->
    (forall key, In key (digests H fs (registered os_path_isfile paths)) ->
                 usable_report (vt_get_file_report key)) ->
    let res := run H fs os_path_isfile vt_get_file_report paths in
    snd res = Ok tt /\
    queries (snd (fst res)) = keys (hash_dict (fst (fst res))) /\
    reported_results (snd (fst res)) =
    map vt_get_file_report (keys (hash_dict (fst (fst res)))).
Proof.
  intros paths Hread Huse res. subst res. rewrite run_phases.
  pose proof (register_files_ok H fs os_path_isfile paths entityHandler_init Hread) as Hok.
  pose proof (register_files_default_counts paths entityHandler_init (Forall_nil _))
    as Hdef.
  pose proof (fun k => register_files_keys H fs os_path_isfile paths entityHandler_init
                         k Hread) as Hkeys.
  unfold outcome, state_after in *.
  destruct (register_files H fs os_path_isfile paths entityHandler_init) as [self r].
  cbn [fst snd] in *. subst r.
  set (wt := if count_entities self <=? 4 then 0 else 15).
  assert (Hitems : Forall (fun item =>
    snd (add_virustotal_result (vt_get_file_report (fst item)) (snd item)) = Ok tt /\
    verdict_returns (polled_entity vt_get_file_report item)) (hash_dict self)).
  { rewrite Forall_forall in *. intros [k e] Hin.
    apply (usable_report_recorded (vt_get_file_report k) (k, e)).
    - apply Huse. apply (in_map fst) in Hin. apply Hkeys in Hin.
      destruct Hin as [[]|Hin]. exact Hin.
    - exact (Hdef _ Hin). }
  assert (Hrec : Forall (fun item =>
    snd (add_virustotal_result (vt_get_file_report (fst item)) (snd item)) = Ok tt)
    (hash_dict self)).
  { eapply Forall_impl; [|exact Hitems]. now intros item [Hr _]. }
  assert (Hver : Forall verdict_returns
    (map (polled_entity vt_get_file_report) (hash_dict self))).
  { apply Forall_map. eapply Forall_impl; [|exact Hitems]. now intros item [_ Hv]. }
  pose proof (poll_returns wt (hash_dict self) [] Hrec) as Hpoll.
  pose proof (poll_completes vt_get_file_report wt (hash_dict self) [] Hpoll) as Hfst.
  destruct (poll vt_get_file_report wt (hash_dict self) []) as [[items w] r].
  cbn [fst snd app] in *. subst r. injection Hfst as -> ->.
  rewrite (report_returns _ _ Hver). cbn [fst snd hash_dict].
  split; [reflexivity|].
  assert (Hk : keys (map (polled_entity vt_get_file_report) (hash_dict self)) =
               keys (hash_dict self)).
  { unfold keys. rewrite map_map. reflexivity. }
  rewrite Hk. split.
  - rewrite queries_app, queries_polled_trace.
    pose proof (report_quiet (map (polled_entity vt_get_file_report) (hash_dict self)) [])
      as [Hq _].
    rewrite (report_returns _ _ Hver) in Hq. cbn [fst app] in Hq.
    rewrite Hq. cbn. now rewrite app_nil_r.
  - unfold reported_results at 1. rewrite flat_map_app.
    fold (reported_results (polled_trace wt (hash_dict self))).
    fold (reported_results
            (flat_map report_lines
               (map (polled_entity vt_get_file_report) (hash_dict self)))).
    rewrite reported_results_polled_trace, (reported_results_report_lines _ Hver).
    cbn [app]. unfold keys. rewrite !map_map. apply map_ext.
    intros [k e]. unfold polled_entity, get_virustotal_result, state_after.
    cbn [fst snd]. apply avr_stores_response.
Qed.

End RunSucceeds.

Lemma run_succeeds_on_usable_reports_witness :
  let res := run plain_hashlib fs3 (fun _ => true)
               (fun _ => found_report (PInt 60) (PInt 6))
               ["dir/A"; "dir/sub/B"; "dir/C"] in
  snd res = Ok tt /\
  queries (snd (fst res)) = keys (hash_dict (fst (fst res))) /\
  reported_results (snd (fst res)) =
  map (fun _ => found_report (PInt 60) (PInt 6)) (keys (hash_dict (fst (fst res)))).
Proof.
  apply (run_succeeds_on_usable_reports plain_hashlib fs3 (fun _ => true)
           (fun _ => found_report (PInt 60) (PInt 6))
           ["dir/A"; "dir/sub/B"; "dir/C"]).
  - repeat constructor; discriminate.
  - intros key _. eexists _, _.
    split; [reflexivity|]. split; [reflexivity|]. intros _.
    exists 60, 6, (PStr "2019-05-01 12:00:00").
    split; [reflexivity|]. split; [reflexivity|]. split; [reflexivity|].
    split; split; first [reflexivity | discriminate].
Defined.
